(** * Wallet credit-limit scorecard: a shallow embedding of
      [set_credit_limit] (wallet_cr_limit_app.py) and the properties the
      specification states about it.

    The Python function takes seven dynamically typed arguments, validates
    them, applies four decline gates, sizes a limit from a table of
    (factor, cap) leaves and returns [(decision, limit, reason)].

    Numbers are modelled as Python has them: [int] as [Z], [float] as an
    IEEE-754 binary64 value ([spec_float] at precision 53, emax 1024) with
    the round-to-nearest-even operations of [SpecFloat]; [bool] is the [int]
    subclass it is in Python.  Strings are sequences of ASCII characters;
    [str.lower] and [str.upper] act on the 26 letters. *)

From Stdlib Require Import ZArith Bool List String Ascii Lia.
From Stdlib Require Import SpecFloat.
Import ListNotations.

Local Open Scope string_scope.
Local Open Scope Z_scope.

(* ------------------------------------------------------------------ *)
(** ** Python values, exceptions and the error monad                    *)
(* ------------------------------------------------------------------ *)

(** The argument values the model distinguishes.  [VNone] stands for any
    object that is neither a number nor has a [lower] method. *)
Inductive value : Type :=
| VNone
| VBool (b : bool)
| VInt (z : Z)
| VFloat (f : spec_float)
| VStr (s : string)
| VBytes (s : string).

(** Numbers after the [isinstance(x, (int, float))] checks. *)
Inductive num : Type :=
| NInt (z : Z)
| NFloat (f : spec_float).

Inductive exn : Type :=
| ValueError (msg : string)
| AttributeError
| OverflowError
| ZeroDivisionError.

Inductive result (A : Type) : Type :=
| Ok (a : A)
| Raise (e : exn).

Arguments Ok {A} a.
Arguments Raise {A} e.

Definition bind {A B : Type} (r : result A) (k : A -> result B) : result B :=
  match r with
  | Ok a => k a
  | Raise e => Raise e
  end.

Notation "x <- e ;; k" := (bind e (fun x => k))
  (at level 61, e at next level, right associativity).

(* ------------------------------------------------------------------ *)
(** ** Strings                                                          *)
(* ------------------------------------------------------------------ *)

Definition lower_char (c : ascii) : ascii :=
  let n := N_of_ascii c in
  if ((65 <=? n) && (n <=? 90))%N then ascii_of_N (n + 32) else c.

Definition upper_char (c : ascii) : ascii :=
  let n := N_of_ascii c in
  if ((97 <=? n) && (n <=? 122))%N then ascii_of_N (n - 32) else c.

Fixpoint map_string (f : ascii -> ascii) (s : string) : string :=
  match s with
  | EmptyString => EmptyString
  | String c r => String (f c) (map_string f r)
  end.

(** [s.lower()] and [s.upper()] on ASCII text: the letters a-z and A-Z
    change case and every other character is kept.  Python's [str.upper]
    also turns a few characters outside ASCII into ASCII letters (dotless
    i into I, long s into S), so [upper] is [str.upper] on the texts that
    [ascii_text] below describes. *)
Definition lower (s : string) : string := map_string lower_char s.
Definition upper (s : string) : string := map_string upper_char s.

(** [s in [w1, ..., wn]] for a list of [str] literals. *)
Definition str_in (s : string) (ws : list string) : bool :=
  existsb (String.eqb s) ws.

(* ------------------------------------------------------------------ *)
(** ** binary64 floats                                                  *)
(* ------------------------------------------------------------------ *)

Definition prec : Z := 53.
Definition emax : Z := 1024.

(** The nearest binary64 value of an integer (infinite when out of range). *)
Definition b64_of_Z (z : Z) : spec_float := binary_normalize prec emax z 0 false.

(** [float(z)] as Python applies it to an [int] operand of a mixed
    operation: too large an [int] raises [OverflowError]. *)
Definition float_of_int (z : Z) : result spec_float :=
  match b64_of_Z z with
  | S754_infinity _ => Raise OverflowError
  | f => Ok f
  end.

(** A decimal literal [n/d] with [n] and [d] exactly representable: the
    correctly rounded quotient is the double nearest to the decimal number,
    which is the value the Python parser gives the literal. *)
Definition dec_lit (n d : Z) : spec_float :=
  SFdiv prec emax (b64_of_Z n) (b64_of_Z d).

Definition f0_2  : spec_float := Eval vm_compute in dec_lit 2 10.
Definition f0_3  : spec_float := Eval vm_compute in dec_lit 3 10.
Definition f0_4  : spec_float := Eval vm_compute in dec_lit 4 10.
Definition f0_45 : spec_float := Eval vm_compute in dec_lit 45 100.
Definition f0_5  : spec_float := Eval vm_compute in dec_lit 5 10.
Definition f0_55 : spec_float := Eval vm_compute in dec_lit 55 100.
Definition f0_6  : spec_float := Eval vm_compute in dec_lit 6 10.
Definition f0_65 : spec_float := Eval vm_compute in dec_lit 65 100.
Definition f0_7  : spec_float := Eval vm_compute in dec_lit 7 10.

Definition is_zero (f : spec_float) : bool :=
  match f with S754_zero _ => true | _ => false end.

(** Exact comparison of a float with an integer, as Python compares a
    [float] with an [int] ([None] for NaN). *)
Definition float_cmp_int (f : spec_float) (a : Z) : option comparison :=
  match f with
  | S754_nan => None
  | S754_infinity s => Some (if s then Lt else Gt)
  | S754_zero _ => Some (0 ?= a)
  | S754_finite s m e =>
      let v := cond_Zopp s (Zpos m) in
      Some (if 0 <=? e then (v * 2 ^ e ?= a) else (v ?= a * 2 ^ (- e)))
  end.

Definition num_compare (x y : num) : option comparison :=
  match x, y with
  | NInt a, NInt b => Some (a ?= b)
  | NFloat f, NFloat g => SFcompare f g
  | NFloat f, NInt a => float_cmp_int f a
  | NInt a, NFloat f => option_map CompOpp (float_cmp_int f a)
  end.

Definition py_lt (x y : num) : bool :=
  match num_compare x y with Some Lt => true | _ => false end.
Definition py_le (x y : num) : bool :=
  match num_compare x y with Some (Lt | Eq) => true | _ => false end.
Definition py_gt (x y : num) : bool :=
  match num_compare x y with Some Gt => true | _ => false end.
Definition py_eq (x y : num) : bool :=
  match num_compare x y with Some Eq => true | _ => false end.

(** [min(a, b)]: the second argument replaces the first only when it is
    strictly smaller. *)
Definition py_min (a b : num) : num := if py_lt b a then b else a.

Definition to_float (x : num) : result spec_float :=
  match x with
  | NInt z => float_of_int z
  | NFloat f => Ok f
  end.

(** [a * b]. *)
Definition py_mul (a b : num) : result num :=
  match a, b with
  | NInt x, NInt y => Ok (NInt (x * y))
  | _, _ =>
      fa <- to_float a ;;
      fb <- to_float b ;;
      Ok (NFloat (SFmul prec emax fa fb))
  end.

(** The integer as an unrounded float, for the correctly rounded quotient
    of two [int]s. *)
Definition raw_of_Z (z : Z) : spec_float :=
  match z with
  | Z0 => S754_zero false
  | Zpos p => S754_finite false p 0
  | Zneg p => S754_finite true p 0
  end.

(** [a / b] (true division). *)
Definition py_truediv (a b : num) : result num :=
  match a, b with
  | NInt x, NInt y =>
      if y =? 0 then Raise ZeroDivisionError
      else match SFdiv prec emax (raw_of_Z x) (raw_of_Z y) with
           | S754_infinity _ => Raise OverflowError
           | q => Ok (NFloat q)
           end
  | _, _ =>
      fa <- to_float a ;;
      fb <- to_float b ;;
      if is_zero fb then Raise ZeroDivisionError
      else Ok (NFloat (SFdiv prec emax fa fb))
  end.

(** Round a float to the nearest integer, ties to even, keeping the sign
    of a zero result: what [round(x, 0)] does on a [float]. *)
Definition round_half_even (f : spec_float) : spec_float :=
  match f with
  | S754_finite s m e =>
      if 0 <=? e then f
      else
        let k := - e in
        let q := Zpos m / 2 ^ k in
        let r := Zpos m mod 2 ^ k in
        let n := match 2 * r ?= 2 ^ k with
                 | Lt => q
                 | Eq => if Z.even q then q else q + 1
                 | Gt => q + 1
                 end in
        if n =? 0 then S754_zero s
        else binary_normalize prec emax (cond_Zopp s n) 0 s
  | _ => f
  end.

(** [round(x, 0)]: an [int] is returned as it is, a [float] is rounded to
    an integral [float]; NaN and the infinities round to themselves. *)
Definition py_round0 (x : num) : num :=
  match x with
  | NInt z => NInt z
  | NFloat f => NFloat (round_half_even f)
  end.

(* ------------------------------------------------------------------ *)
(** ** Dynamic checks of the validation block                           *)
(* ------------------------------------------------------------------ *)

(** [isinstance(v, (int, float))]; a [bool] is an [int]. *)
Definition as_num (v : value) : option num :=
  match v with
  | VBool b => Some (NInt (if b then 1 else 0))
  | VInt z => Some (NInt z)
  | VFloat f => Some (NFloat f)
  | _ => None
  end.

(** [if not isinstance(v, (int, float)): raise ValueError(msg)]. *)
Definition require_numeric (v : value) (msg : string) : result num :=
  match as_num v with
  | Some n => Ok n
  | None => Raise (ValueError msg)
  end.

(** [if not isinstance(v, str): raise ValueError(msg)]. *)
Definition require_str (v : value) (msg : string) : result string :=
  match v with
  | VStr s => Ok s
  | _ => Raise (ValueError msg)
  end.

(** [v.lower()] on an unchecked value: only [str] and [bytes] have the
    method, anything else raises [AttributeError]. *)
Definition attr_lower (v : value) : result value :=
  match v with
  | VStr s => Ok (VStr (lower s))
  | VBytes s => Ok (VBytes (lower s))
  | _ => Raise AttributeError
  end.

(** [v in [w1, ..., wn]] and [v == w] against [str] literals: a [bytes]
    object equals no [str]. *)
Definition value_in (v : value) (ws : list string) : bool :=
  match v with
  | VStr s => str_in s ws
  | _ => false
  end.

Definition value_eq_str (v : value) (w : string) : bool :=
  match v with
  | VStr s => String.eqb s w
  | _ => false
  end.

(* ------------------------------------------------------------------ *)
(** ** The messages of the source                                       *)
(* ------------------------------------------------------------------ *)

Definition msg_ntxns_numeric : string :=
  "Average number of transactions per month must be numeric.".
Definition msg_sum_numeric : string :=
  "Average sum of credits per month must be numeric.".
Definition msg_median_numeric : string :=
  "Median of the average credits per month must be numeric.".
Definition msg_length_numeric : string :=
  "Length on platform must be numeric.".
Definition msg_quality_str : string :=
  "CRB credit quality value must be a string.".
Definition msg_quality_enum : string :=
  "CRB credit quality value must be either 'Defaulter', 'Lowest', 'Low', 'Moderate', 'High' or 'Highest'.".
Definition msg_listing_enum : string :=
  "CRB listing can only take the values 'Neg' or 'Pos'.".
Definition msg_btype_str : string :=
  "Business type value must be a string.".
Definition msg_btype_enum : string :=
  "Business type value must be either 'INDIVIDUAL', 'SOLE_PROPRIETOR', 'UNREGISTERED', 'LIMITED_COMPANY', or 'PARTNERSHIP'.".

Definition reason_neg_listing : string :=
  "Customer has a negative CRB listing status.".
Definition reason_few_txns : string :=
  "Customer has < 2 average transactions per month.".
Definition reason_low_sum : string :=
  "Customer has an average sum of credit amount per month < 1k.".
Definition reason_defaulter : string :=
  "Customer categorized as a defaulter in CRB credit quality.".
Definition reason_default : string :=
  "Eligibility criteria met. Limit based on transaction activity.".
Definition reason_new_low_quality : string :=
  "Customer is <= 2 months old on the platform with low credit quality.".
Definition reason_new : string :=
  "Customer is <= 1 month old on the platform.".
Definition reason_sum_no_limit : string :=
  "Customer's average sum of credit value per month does not qualify a limit.".
Definition reason_eligible_zero : string :=
  "Customer eligible for credit. However, average sum of credit value per month does not qualify a limit.".

Definition quality_levels : list string :=
  ["defaulter"; "lowest"; "low"; "moderate"; "high"; "highest"].
Definition listing_levels : list string := ["neg"; "pos"].
Definition business_types : list string :=
  ["INDIVIDUAL"; "SOLE_PROPRIETOR"; "UNREGISTERED"; "LIMITED_COMPANY"; "PARTNERSHIP"].

(* ------------------------------------------------------------------ *)
(** ** set_credit_limit                                                 *)
(* ------------------------------------------------------------------ *)

(** The returned tuple [(decision, credit_limit, reason)]. *)
Definition outcome : Type := (string * num * string)%type.

Definition decline (reason : string) : result outcome :=
  Ok ("Decline", NInt 0, reason).

(** What the limit algorithm (source lines 100-146) leaves behind: an early
    [return 'Decline', 0, ...], or the variables [credit_limit] and
    [reason] for the final block. *)
Inductive sizing : Type :=
| Return (reason : string)
| Sized (credit_limit : num) (reason : string).

(** [credit_limit = min(factor * median, cap)]. *)
Definition leaf (factor : spec_float) (median : num) (cap : Z) (reason : string)
  : result sizing :=
  x <- py_mul (NFloat factor) median ;;
  Ok (Sized (py_min x (NInt cap)) reason).

(** Source lines 95-146.  [credit_limit] starts at the [int] 0 and
    [reason] at the default text. *)
Definition size_limit (category quality : string)
    (length_on_platform avg_sum_credits_per_month median_avg_credits_per_month : num)
  : result sizing :=
  let credit_limit := NInt 0 in
  let reason := reason_default in
  if String.eqb (lower category) "ind" then
    if str_in quality ["lowest"; "low"] then
      if py_le length_on_platform (NInt 2) then Ok (Return reason_new_low_quality)
      else if py_le (NInt 3) length_on_platform && py_le length_on_platform (NInt 5)
      then leaf f0_2 median_avg_credits_per_month 10000 reason
      else leaf f0_3 median_avg_credits_per_month 15000 reason
    else
      if str_in quality ["moderate"; "high"; "highest"] then
        if py_le length_on_platform (NInt 1) then Ok (Return reason_new)
        else if py_le (NInt 2) length_on_platform && py_le length_on_platform (NInt 5)
        then leaf f0_3 median_avg_credits_per_month 20000 reason
        else
          if py_lt avg_sum_credits_per_month (NInt 1000)
          then Ok (Sized (NInt 0) reason_sum_no_limit)
          else if py_le (NInt 1000) avg_sum_credits_per_month
                  && py_le avg_sum_credits_per_month (NInt 100000)
          then leaf f0_4 median_avg_credits_per_month 25000 reason
          else leaf f0_5 median_avg_credits_per_month 30000 reason
      else Ok (Sized credit_limit reason)
  else
    if str_in quality ["lowest"; "low"] then
      if py_le length_on_platform (NInt 2) then Ok (Return reason_new_low_quality)
      else if py_le (NInt 3) length_on_platform && py_le length_on_platform (NInt 5)
      then leaf f0_45 median_avg_credits_per_month 50000 reason
      else leaf f0_55 median_avg_credits_per_month 100000 reason
    else
      if str_in quality ["moderate"; "high"; "highest"] then
        if py_le length_on_platform (NInt 1) then Ok (Return reason_new)
        else if py_le (NInt 2) length_on_platform && py_le length_on_platform (NInt 5)
        then leaf f0_6 median_avg_credits_per_month 150000 reason
        else
          if py_lt avg_sum_credits_per_month (NInt 1000)
          then Ok (Sized (NInt 0) reason_sum_no_limit)
          else if py_le (NInt 1000) avg_sum_credits_per_month
                  && py_le avg_sum_credits_per_month (NInt 100000)
          then leaf f0_65 median_avg_credits_per_month 200000 reason
          else leaf f0_7 median_avg_credits_per_month 350000 reason
      else Ok (Sized credit_limit reason).

(** [round(credit_limit / 10, 0) * 10]. *)
Definition round_to_ten (credit_limit : num) : result num :=
  q <- py_truediv credit_limit (NInt 10) ;;
  py_mul (py_round0 q) (NInt 10).

(** Source lines 148-154, entered with [decision = 'Decline']. *)
Definition finalize (decision : string) (credit_limit : num) (reason : string)
  : result outcome :=
  let '(decision, reason) :=
    if py_gt credit_limit (NInt 0) then ("Accept", reason)
    else if String.eqb decision "Accept" && py_eq credit_limit (NInt 0)
    then (decision, reason_eligible_zero)
    else (decision, reason) in
  limit <- round_to_ten credit_limit ;;
  Ok (decision, limit, reason).

Definition set_credit_limit
    (avg_ntxns_per_month avg_sum_credits_per_month median_avg_credits_per_month
     businesstype crb_cr_quality crb_listing length_on_platform : value)
  : result outcome :=
  (* validation *)
  ntxns <- require_numeric avg_ntxns_per_month msg_ntxns_numeric ;;
  sum <- require_numeric avg_sum_credits_per_month msg_sum_numeric ;;
  median <- require_numeric median_avg_credits_per_month msg_median_numeric ;;
  len <- require_numeric length_on_platform msg_length_numeric ;;
  quality <- require_str crb_cr_quality msg_quality_str ;;
  if negb (str_in (lower quality) quality_levels)
  then Raise (ValueError msg_quality_enum) else
  listing <- attr_lower crb_listing ;;
  if negb (value_in listing listing_levels)
  then Raise (ValueError msg_listing_enum) else
  btype <- require_str businesstype msg_btype_str ;;
  let btype := upper btype in
  if negb (str_in btype business_types)
  then Raise (ValueError msg_btype_enum) else
  (* customer category *)
  let category :=
    if str_in btype ["INDIVIDUAL"; "SOLE_PROPRIETOR"; "UNREGISTERED"]
    then "IND" else "BUS" in
  (* gates *)
  if value_eq_str listing "neg" then decline reason_neg_listing else
  if py_le ntxns (NInt 1) then decline reason_few_txns else
  if py_lt sum (NInt 1000) then decline reason_low_sum else
  if String.eqb (lower quality) "defaulter" then decline reason_defaulter else
  (* limit algorithm *)
  let decision := "Decline" in
  sz <- size_limit category (lower quality) len sum median ;;
  match sz with
  | Return reason => decline reason
  | Sized credit_limit reason => finalize decision credit_limit reason
  end.

(** The specification's [evaluate(profile)]. *)
Record CustomerProfile : Type := {
  avg_ntxns_per_month : value;
  avg_sum_credits_per_month : value;
  median_avg_credits_per_month : value;
  business_type : value;
  crb_credit_quality : value;
  crb_listing : value;
  length_on_platform_months : value
}.

Definition evaluate (p : CustomerProfile) : result outcome :=
  set_credit_limit p.(avg_ntxns_per_month) p.(avg_sum_credits_per_month)
    p.(median_avg_credits_per_month) p.(business_type) p.(crb_credit_quality)
    p.(crb_listing) p.(length_on_platform_months).

(* ------------------------------------------------------------------ *)
(** ** Profiles the specification calls valid                           *)
(* ------------------------------------------------------------------ *)

Definition is_numeric (v : value) : bool :=
  match as_num v with Some _ => true | None => false end.

(** A non-negative real: an [int] (or [bool]) that is not negative, or a
    float that is zero or finite and positive. *)
Definition nonneg_real (v : value) : bool :=
  match as_num v with
  | Some (NInt z) => 0 <=? z
  | Some (NFloat (S754_zero _)) => true
  | Some (NFloat (S754_finite s _ _)) => negb s
  | _ => false
  end.

(** A [str] whose normalised text is one of the recognised levels. *)
Definition enum_field (norm : string -> string) (levels : list string) (v : value)
  : bool :=
  match v with
  | VStr s => str_in (norm s) levels
  | _ => false
  end.

(** The data model of the specification: three non-negative amounts, a
    non-negative length, and the three case-insensitive enumerations. *)
Definition valid_profile (p : CustomerProfile) : bool :=
  nonneg_real p.(avg_ntxns_per_month)
  && nonneg_real p.(avg_sum_credits_per_month)
  && nonneg_real p.(median_avg_credits_per_month)
  && nonneg_real p.(length_on_platform_months)
  && enum_field lower quality_levels p.(crb_credit_quality)
  && enum_field lower listing_levels p.(crb_listing)
  && enum_field upper business_types p.(business_type).

(** The integer a float denotes, when it denotes one. *)
Definition float_to_Z (f : spec_float) : option Z :=
  match f with
  | S754_zero _ => Some 0
  | S754_finite s m e =>
      if 0 <=? e then Some (cond_Zopp s (Zpos m * 2 ^ e))
      else if Zpos m mod 2 ^ (- e) =? 0 then Some (cond_Zopp s (Zpos m / 2 ^ (- e)))
      else None
  | _ => None
  end.

Definition num_to_Z (x : num) : option Z :=
  match x with
  | NInt z => Some z
  | NFloat f => float_to_Z f
  end.

Definition nonneg_multiple_of_10 (x : num) : bool :=
  match num_to_Z x with
  | Some z => (0 <=? z) && (z mod 10 =? 0)
  | None => false
  end.

(** The (factor, cap) leaves of the sizing table, in source order. *)
Definition leaves : list (spec_float * Z) :=
  [(f0_2, 10000); (f0_3, 15000); (f0_3, 20000); (f0_4, 25000); (f0_5, 30000);
   (f0_45, 50000); (f0_55, 100000); (f0_6, 150000); (f0_65, 200000);
   (f0_7, 350000)].

(** The profile of a call with three [str] fields. *)
Definition profile (a s m : value) (b q l : string) (len : value) : CustomerProfile :=
  {| avg_ntxns_per_month := a;
     avg_sum_credits_per_month := s;
     median_avg_credits_per_month := m;
     business_type := VStr b;
     crb_credit_quality := VStr q;
     crb_listing := VStr l;
     length_on_platform_months := len |}.

(* ------------------------------------------------------------------ *)
(** ** Notions used in the statements and proofs                        *)
(* ------------------------------------------------------------------ *)

(** The reasons a call can return. *)
Definition returned_reasons : list string :=
  [reason_neg_listing; reason_few_txns; reason_low_sum; reason_defaulter;
   reason_new_low_quality; reason_new; reason_default].

(** The mantissa [M] at exponent [E] denotes the integer [W]. *)
Definition denotes (M E W : Z) : Prop :=
  (0 <= E /\ W = M * 2 ^ E) \/ (E < 0 /\ M = W * 2 ^ (- E)).

(** Zero or positive, NaN excluded, an infinity allowed. *)
Definition nonneg_float (g : spec_float) : Prop :=
  match g with
  | S754_zero _ => True
  | S754_infinity s | S754_finite s _ _ => s = false
  | S754_nan => False
  end.

(** A leaf of the table: a positive finite factor, a cap of at most
    350000, and a cap that the final rounding leaves a multiple of 10. *)
Definition leaf_ok (fc : spec_float * Z) : bool :=
  let '(f, c) := fc in
  match f with S754_finite false _ _ => true | _ => false end
  && (0 <? c) && (c <=? 350000)
  && match round_to_ten (NInt c) with
     | Ok l => nonneg_multiple_of_10 l
     | Raise _ => false
     end.

(* ------------------------------------------------------------------ *)
(** ** Notions used for the further properties                          *)
(* ------------------------------------------------------------------ *)

(** The validation block lets the call through: four numbers and three
    [str] values inside their enumerations. *)
Definition accepted (a s m b q l len : value) : bool :=
  is_numeric a && is_numeric s && is_numeric m && is_numeric len
  && enum_field lower quality_levels q
  && enum_field lower listing_levels l
  && enum_field upper business_types b.




(** The messages of the [ValueError]s the validation block raises. *)
Definition validation_messages : list string :=
  [msg_ntxns_numeric; msg_sum_numeric; msg_median_numeric; msg_length_numeric;
   msg_quality_str; msg_quality_enum; msg_listing_enum; msg_btype_str;
   msg_btype_enum].

(** The six reasons of an early [return 'Decline', 0, ...]. *)
Definition decline_reasons : list string :=
  [reason_neg_listing; reason_few_txns; reason_low_sum; reason_defaulter;
   reason_new_low_quality; reason_new].

(** The leaves of the two category arms. *)
Definition ind_leaves : list (spec_float * Z) := firstn 5 leaves.
Definition bus_leaves : list (spec_float * Z) := skipn 5 leaves.

(** Zero or negative, NaN included: a float that is not greater than 0. *)
Definition nonpos_float (g : spec_float) : Prop :=
  match g with
  | S754_zero _ | S754_nan => True
  | S754_infinity s | S754_finite s _ _ => s = true
  end.

(** The leaves the limit algorithm can take for a category. *)
Definition leaves_of (category : string) : list (spec_float * Z) :=
  if String.eqb (lower category) "ind" then ind_leaves else bus_leaves.

(** The caps of the table: multiples of 10 of at most 350000, at most
    30000 in the IND arm, and returned unchanged by the final rounding. *)
Definition cap_ok (bound : Z) (fc : spec_float * Z) : bool :=
  let '(f, c) := fc in
  (0 <? c) && (c <=? bound) && (c mod 10 =? 0)
  && match round_to_ten (NInt c) with
     | Ok l => negb (py_gt l (NInt c))
     | Raise _ => false
     end.


(* ------------------------------------------------------------------ *)
(** ** The Streamlit form (source lines 160-179)                        *)
(* ------------------------------------------------------------------ *)

(** The options of the three select boxes, lines 164-166. *)
Definition business_options : list string :=
  ["INDIVIDUAL"; "SOLE_PROPRIETOR"; "UNREGISTERED"; "LIMITED_COMPANY"; "PARTNERSHIP"].
Definition quality_options : list string :=
  ["Defaulter"; "Lowest"; "Low"; "Moderate"; "High"; "Highest"].
Definition listing_options : list string := ["Pos"; "Neg"].

(** The call of lines 171-179: the three amounts come from number inputs
    declared with [min_value=0.0, step=0.1] (floats), the length from one
    declared with [min_value=0, step=1] (an [int]), the three texts from
    the select boxes. *)
Definition form_call (ntxns sum median : spec_float) (businesstype quality listing : string)
    (length : Z) : result outcome :=
  set_credit_limit (VFloat ntxns) (VFloat sum) (VFloat median)
    (VStr businesstype) (VStr quality) (VStr listing) (VInt length).

(* ------------------------------------------------------------------ *)
(** ** Tactics                                                          *)
(* ------------------------------------------------------------------ *)

(** Rewriting away a validation block that succeeds. *)
Ltac validated :=
  unfold evaluate, profile, set_credit_limit, require_numeric;
  cbn [avg_ntxns_per_month avg_sum_credits_per_month median_avg_credits_per_month
       business_type crb_credit_quality crb_listing length_on_platform_months];
  repeat match goal with H : as_num _ = Some _ |- _ => rewrite H end;
  cbn [bind require_str attr_lower value_in value_eq_str];
  repeat match goal with H : str_in _ _ = true |- _ => rewrite H end;
  cbn [negb].

(** Evaluate the tests on string literals that occur in the goal. *)
Ltac eval_str :=
  repeat match goal with
  | |- context [str_in ?s ?l] =>
      let v := eval vm_compute in (str_in s l) in
      lazymatch v with
      | true => change (str_in s l) with true
      | false => change (str_in s l) with false
      end
  | |- context [String.eqb ?s ?t] =>
      let v := eval vm_compute in (String.eqb s t) in
      lazymatch v with
      | true => change (String.eqb s t) with true
      | false => change (String.eqb s t) with false
      end
  end.

(** Run the validation block on arbitrary arguments: every failing check
    closes its goal, the surviving goal has the checked values in place. *)
Ltac run_validation :=
  unfold set_credit_limit, require_numeric;
  repeat match goal with
  | |- context [as_num ?v] =>
      lazymatch v with
      | VInt _ => fail
      | VFloat _ => fail
      | VBool _ => fail
      | _ => destruct (as_num v); [|reflexivity]
      end
  end;
  cbn [as_num bind require_str attr_lower value_in value_eq_str].

(* ------------------------------------------------------------------ *)
(** ** The model on concrete values                                     *)
(* ------------------------------------------------------------------ *)

(** [0.2] is [0x1.999999999999ap-3] and [0.7] is [0x1.6666666666666p-1]. *)
Example f0_2_bits : f0_2 = S754_finite false 7205759403792794 (-55).
Proof. reflexivity. Qed.

Example f0_7_bits : f0_7 = S754_finite false 6305039478318694 (-53).
Proof. reflexivity. Qed.

(** [round(2.5, 0)] is [2.0], [round(3.5, 0)] is [4.0] and
    [round(-0.1, 0)] is [-0.0]. *)
Example round_ties_to_even :
  round_half_even (dec_lit 25 10) = b64_of_Z 2
  /\ round_half_even (dec_lit 35 10) = b64_of_Z 4
  /\ round_half_even (dec_lit (-1) 10) = S754_zero true.
Proof. repeat split; vm_compute; reflexivity. Qed.

(** [350000.0], [0] and [-0.0] are non-negative multiples of 10; [5.0],
    [-10.0], [2.5], NaN and the infinity are not. *)
Example nonneg_multiple_of_10_values :
  map nonneg_multiple_of_10
    [NFloat (b64_of_Z 350000); NInt 0; NFloat (S754_zero true);
     NFloat (b64_of_Z 5); NFloat (b64_of_Z (-10)); NFloat (dec_lit 25 10);
     NFloat S754_nan; NFloat (S754_infinity false)]
  = [true; true; true; false; false; false; false; false].
Proof. vm_compute. reflexivity. Qed.

(** Scenario 1 returns Accept with 4000.0; with a negative listing
    (Scenario 2) it returns Decline with the [int] 0. *)
Example scenario1_result :
  evaluate (profile (VInt 5) (VInt 5000) (VInt 10000) "INDIVIDUAL" "Moderate" "Pos"
              (VInt 10))
  = Ok ("Accept", NFloat (b64_of_Z 4000), reason_default).
Proof. vm_compute. reflexivity. Qed.

Example scenario2_result :
  evaluate (profile (VInt 5) (VInt 5000) (VInt 10000) "INDIVIDUAL" "Moderate" "Neg"
              (VInt 10))
  = Ok ("Decline", NInt 0, reason_neg_listing).
Proof. vm_compute. reflexivity. Qed.

(** The validation block does not reject a negative median: the call
    returns Decline with the limit [-200.0].  Such a profile is outside
    the data model of the specification. *)
Example negative_median_result :
  evaluate (profile (VInt 5) (VInt 5000) (VInt (-1000)) "INDIVIDUAL" "Low" "Pos"
              (VInt 4))
  = Ok ("Decline", NFloat (b64_of_Z (-200)), reason_default).
Proof. vm_compute. reflexivity. Qed.

(* ------------------------------------------------------------------ *)
(** ** Strings: case mapping                                            *)
(* ------------------------------------------------------------------ *)




(** Membership in a list of literals, as a disjunction of equalities. *)
Lemma str_in_cases s ws : str_in s ws = true -> In s ws.
Proof.
  unfold str_in. rewrite existsb_exists. intros (w & Hin & Heq).
  apply String.eqb_eq in Heq. now subst.
Qed.

Ltac str_cases H :=
  apply str_in_cases in H; cbn [In] in H;
  repeat (destruct H as [H|H]); [..|contradiction]; rewrite <- H.

(* ------------------------------------------------------------------ *)
(** ** Comparisons                                                      *)
(* ------------------------------------------------------------------ *)

(** [2 <= x] excludes [x <= 1], for ints and floats alike. *)
Lemma py_le_2_not_le_1 x : py_le (NInt 2) x = true -> py_le x (NInt 1) = false.
Proof.
  unfold py_le, num_compare.
  destruct x as [z|f].
  - destruct (Z.compare_spec 2 z), (Z.compare_spec z 1);
      try reflexivity; try discriminate; lia.
  - destruct f as [s|s| |s m e]; cbn [float_cmp_int option_map CompOpp].
    + intros H; vm_compute in H; discriminate.
    + destruct s; [discriminate|reflexivity].
    + discriminate.
    + destruct (0 <=? e) eqn:He.
      * assert (0 < 2 ^ e) by (apply Z.pow_pos_nonneg; lia).
        destruct (Z.compare_spec (cond_Zopp s (Z.pos m) * 2 ^ e) 2),
                 (Z.compare_spec (cond_Zopp s (Z.pos m) * 2 ^ e) 1);
          cbn; try reflexivity; try discriminate; lia.
      * assert (0 < 2 ^ (- e)) by (apply Z.pow_pos_nonneg; lia).
        destruct (Z.compare_spec (cond_Zopp s (Z.pos m)) (2 * 2 ^ (- e))),
                 (Z.compare_spec (cond_Zopp s (Z.pos m)) (1 * 2 ^ (- e)));
          cbn; try reflexivity; try discriminate; lia.
Qed.

(* ------------------------------------------------------------------ *)
(** ** The shape of a returned tuple                                    *)
(* ------------------------------------------------------------------ *)

Lemma finalize_decline cl r d l r' :
  finalize "Decline" cl r = Ok (d, l, r') ->
  r' = r /\ round_to_ten cl = Ok l /\
  d = (if py_gt cl (NInt 0) then "Accept" else "Decline").
Proof.
  unfold finalize. cbn [String.eqb Ascii.eqb Bool.eqb andb].
  destruct (py_gt cl (NInt 0)); destruct (round_to_ten cl); cbn [bind]; intros H;
    inversion H; auto.
Qed.

Lemma leaf_inv f m c r sz :
  leaf f m c r = Ok sz ->
  exists x, py_mul (NFloat f) m = Ok x /\ sz = Sized (py_min x (NInt c)) r.
Proof.
  unfold leaf. destruct (py_mul (NFloat f) m); cbn [bind]; intros H; inversion H; eauto.
Qed.

(** Past gate 3 the limit algorithm ends in one of three reasons. *)
Lemma size_limit_reason c q ln sum med sz :
  py_lt sum (NInt 1000) = false ->
  size_limit c q ln sum med = Ok sz ->
  match sz with
  | Return r => r = reason_new_low_quality \/ r = reason_new
  | Sized _ r => r = reason_default
  end.
Proof.
  intros Hs. unfold size_limit. rewrite Hs.
  repeat match goal with
  | |- context [if ?b then _ else _] => destruct b
  end;
  intros H; try (apply leaf_inv in H; destruct H as (x & _ & ->); reflexivity);
  inversion H; auto.
Qed.

(** Every returned reason is one of seven texts. *)
Lemma returned_reason_cases a s m b q l len d lim r :
  set_credit_limit a s m b q l len = Ok (d, lim, r) -> In r returned_reasons.
Proof.
  unfold set_credit_limit, require_numeric, require_str, decline.
  destruct (as_num a) as [ntx|]; [|discriminate].
  destruct (as_num s) as [sum|]; [|discriminate].
  destruct (as_num m) as [med|]; [|discriminate].
  destruct (as_num len) as [ln|]; [|discriminate].
  cbn [bind].
  destruct q as [| | | |q|]; try discriminate. cbn [bind].
  destruct (str_in (lower q) quality_levels); [|discriminate]. cbn [negb].
  destruct (attr_lower l) as [l'|]; [|discriminate]. cbn [bind].
  destruct (value_in l' listing_levels); [|discriminate]. cbn [negb].
  destruct b as [| | | |b|]; try discriminate. cbn [bind].
  destruct (str_in (upper b) business_types); [|discriminate]. cbn [negb].
  destruct (value_eq_str l' "neg"); [intros H; inversion H; cbn; auto|].
  destruct (py_le ntx (NInt 1)); [intros H; inversion H; cbn; auto|].
  destruct (py_lt sum (NInt 1000)) eqn:Hs; [intros H; inversion H; cbn; auto 10|].
  destruct (String.eqb (lower q) "defaulter"); [intros H; inversion H; cbn; auto 10|].
  destruct (size_limit _ _ _ _ _) as [sz|] eqn:Hsz; [|discriminate]. cbn [bind].
  apply size_limit_reason in Hsz; [|exact Hs].
  destruct sz as [r0|cl r0].
  - intros H; inversion H; subst. destruct Hsz as [->| ->]; cbn; auto 10.
  - intros H. apply finalize_decline in H. destruct H as [-> _]. subst. cbn; auto 10.
Qed.

(* ------------------------------------------------------------------ *)
(** ** Gates                                                            *)
(* ------------------------------------------------------------------ *)

(** C2: on a profile that passes validation the gates fire in source
    order.  A listing that lower-cases to [neg] gives Decline, limit 0 and
    the negative-listing reason whatever the other fields are; otherwise
    [avg_ntxns_per_month <= 1] gives the transaction reason; otherwise
    [avg_sum_credits_per_month < 1000] gives the credit-sum reason;
    otherwise quality [defaulter] gives the defaulter reason. *)
Theorem C2_gate_order (a s m len : value) (b q l : string) (ntx sum med ln : num) :
  as_num a = Some ntx -> as_num s = Some sum ->
  as_num m = Some med -> as_num len = Some ln ->
  str_in (lower q) quality_levels = true ->
  str_in (lower l) listing_levels = true ->
  str_in (upper b) business_types = true ->
  let res := evaluate (profile a s m b q l len) in
  (lower l = "neg" -> res = Ok ("Decline", NInt 0, reason_neg_listing)) /\
  (lower l <> "neg" -> py_le ntx (NInt 1) = true ->
     res = Ok ("Decline", NInt 0, reason_few_txns)) /\
  (lower l <> "neg" -> py_le ntx (NInt 1) = false ->
   py_lt sum (NInt 1000) = true ->
     res = Ok ("Decline", NInt 0, reason_low_sum)) /\
  (lower l <> "neg" -> py_le ntx (NInt 1) = false ->
   py_lt sum (NInt 1000) = false -> lower q = "defaulter" ->
     res = Ok ("Decline", NInt 0, reason_defaulter)).
Proof.
  intros Ha Hs Hm Hl Hq Hli Hb res. subst res. validated. unfold decline.
  repeat split.
  - intros ->. reflexivity.
  - intros Hn H1. apply String.eqb_neq in Hn. now rewrite Hn, H1.
  - intros Hn H1 H2. apply String.eqb_neq in Hn. now rewrite Hn, H1, H2.
  - intros Hn H1 H2 H3. apply String.eqb_neq in Hn. rewrite Hn, H1, H2, H3.
    reflexivity.
Qed.

(** A negative listing next to too small a credit sum and a defaulter
    quality: every later gate matches too, the first reason is reported. *)
Lemma C2_gate_order_witness :
  evaluate (profile (VInt 1) (VFloat (b64_of_Z 500)) (VInt 10000)
              "individual" "Defaulter" "NEG" (VInt 10))
  = Ok ("Decline", NInt 0, reason_neg_listing).
Proof.
  refine (proj1 (C2_gate_order (VInt 1) (VFloat (b64_of_Z 500)) (VInt 10000) (VInt 10)
            "individual" "Defaulter" "NEG" (NInt 1) (NFloat (b64_of_Z 500))
            (NInt 10000) (NInt 10) _ _ _ _ _ _ _) _); reflexivity.
Defined.

(* ------------------------------------------------------------------ *)
(** ** Validation                                                       *)
(* ------------------------------------------------------------------ *)

(** C3: a [str] quality outside the six levels raises [ValueError] whatever
    the other six arguments are, a negative listing included; when the four
    numeric checks pass, the error is the one of the quality enumeration. *)
Theorem C3_invalid_quality_raises (a s m b l len : value) (q : string) :
  str_in (lower q) quality_levels = false ->
  (exists msg, set_credit_limit a s m b (VStr q) l len = Raise (ValueError msg)) /\
  (is_numeric a && is_numeric s && is_numeric m && is_numeric len = true ->
   set_credit_limit a s m b (VStr q) l len = Raise (ValueError msg_quality_enum)).
Proof.
  intros Hq. unfold set_credit_limit, require_numeric, is_numeric.
  destruct (as_num a); [|split; [eexists; reflexivity|discriminate]].
  destruct (as_num s); [|split; [eexists; reflexivity|discriminate]].
  destruct (as_num m); [|split; [eexists; reflexivity|discriminate]].
  destruct (as_num len); [|split; [eexists; reflexivity|discriminate]].
  cbn [bind require_str]. rewrite Hq. cbn [negb].
  split; [eexists; reflexivity|reflexivity].
Qed.

Lemma C3_invalid_quality_raises_witness :
  set_credit_limit (VInt 5) (VInt 5000) (VInt 10000) (VStr "INDIVIDUAL")
    (VStr "Excellent") (VStr "Neg") (VInt 10)
  = Raise (ValueError msg_quality_enum).
Proof.
  refine (proj2 (C3_invalid_quality_raises (VInt 5) (VInt 5000) (VInt 10000)
            (VStr "INDIVIDUAL") (VStr "Neg") (VInt 10) "Excellent" _) _);
    reflexivity.
Defined.

(** A [str] listing outside neg/pos is rejected with [ValueError]. *)
Lemma invalid_listing_str_raises (a s m b q len : value) (l : string) :
  str_in (lower l) listing_levels = false ->
  exists msg, set_credit_limit a s m b q (VStr l) len = Raise (ValueError msg).
Proof.
  intros Hl. unfold set_credit_limit, require_numeric.
  destruct (as_num a); [|eexists; reflexivity].
  destruct (as_num s); [|eexists; reflexivity].
  destruct (as_num m); [|eexists; reflexivity].
  destruct (as_num len); [|eexists; reflexivity].
  cbn [bind].
  destruct q as [| | | |q|]; cbn [require_str bind]; try (eexists; reflexivity).
  destruct (str_in (lower q) quality_levels); cbn [negb]; [|eexists; reflexivity].
  cbn [attr_lower bind value_in]. rewrite Hl. cbn [negb]. eexists; reflexivity.
Qed.

(** C4: an [int] listing next to six valid arguments reaches
    [crb_listing.lower()] unchecked: the call raises [AttributeError], not
    the [ValueError] of the validation block. *)
Theorem C4_int_listing_attribute_error :
  set_credit_limit (VInt 5) (VInt 5000) (VInt 10000) (VStr "INDIVIDUAL")
    (VStr "Moderate") (VInt 5) (VInt 10)
  = Raise AttributeError.
Proof. reflexivity. Qed.

(* ------------------------------------------------------------------ *)
(** ** Scenarios and the sizing table                                   *)
(* ------------------------------------------------------------------ *)

(** The inputs of Scenario 4 return Accept with 200000.0: the credit sum
    2000 lies in 1000..100000, which selects factor 0.65 and cap 200000. *)
Lemma scenario4_result :
  set_credit_limit (VInt 3) (VInt 2000) (VInt 1000000) (VStr "LIMITED_COMPANY")
    (VStr "Highest") (VStr "Pos") (VInt 12)
  = Ok ("Accept", NFloat (b64_of_Z 200000), reason_default).
Proof. vm_compute. reflexivity. Qed.

(** C6 as stated fails: the limit returned for Scenario 4 is not 350000. *)
Lemma C6_scenario4_not_350000 :
  ~ (exists limit reason,
       set_credit_limit (VInt 3) (VInt 2000) (VInt 1000000) (VStr "LIMITED_COMPANY")
         (VStr "Highest") (VStr "Pos") (VInt 12) = Ok ("Accept", limit, reason)
       /\ py_eq limit (NInt 350000) = true).
Proof.
  intros (limit & reason & H & Heq). rewrite scenario4_result in H.
  inversion H; subst. vm_compute in Heq. discriminate.
Qed.

(** C6 (amended): Scenario 4 returns Accept with limit 200000 and the
    default reason; the 0.7 / 350000 leaf needs a credit sum above 100000,
    and with a sum of 200000 the same profile returns 350000. *)
Theorem C6_scenario4_limit :
  set_credit_limit (VInt 3) (VInt 2000) (VInt 1000000) (VStr "LIMITED_COMPANY")
    (VStr "Highest") (VStr "Pos") (VInt 12)
  = Ok ("Accept", NFloat (b64_of_Z 200000), reason_default)
  /\ py_eq (NFloat (b64_of_Z 200000)) (NInt 200000) = true
  /\ set_credit_limit (VInt 3) (VInt 200000) (VInt 1000000) (VStr "LIMITED_COMPANY")
       (VStr "Highest") (VStr "Pos") (VInt 12)
     = Ok ("Accept", NFloat (b64_of_Z 350000), reason_default).
Proof. repeat split; vm_compute; reflexivity. Qed.

(** The product of a float factor and a number is a float, and raises
    exactly when the number is an [int] too large for a float. *)
Lemma py_mul_float f med :
  py_mul (NFloat f) med = (fm <- to_float med ;; Ok (NFloat (SFmul prec emax f fm))).
Proof. destruct med; reflexivity. Qed.

Lemma to_float_raise med e :
  to_float med = Raise e ->
  e = OverflowError /\ exists z, med = NInt z /\ float_of_int z = Raise OverflowError.
Proof.
  destruct med as [z|g]; cbn [to_float]; [|discriminate].
  intros H. assert (e = OverflowError).
  { revert H. unfold float_of_int. destruct (b64_of_Z z); intros H; inversion H.
    reflexivity. }
  subst e. eauto.
Qed.

(** C7 as stated fails: a valid business profile of quality High with 4
    months on the platform clears the four gates, yet with the [int] median
    [2 ** 1024] line 138 sizes no limit: [0.6 * median] raises
    [OverflowError], and so does the call. *)
Lemma C7_overflowing_median_not_sized :
  let p := profile (VInt 3) (VInt 2000) (VInt (2 ^ 1024)) "PARTNERSHIP" "High" "Pos"
             (VInt 4) in
  valid_profile p = true
  /\ lower "Pos" <> "neg"
  /\ py_le (NInt 3) (NInt 1) = false
  /\ py_lt (NInt 2000) (NInt 1000) = false
  /\ String.eqb (lower "High") "defaulter" = false
  /\ evaluate p = Raise OverflowError
  /\ ~ (exists x, py_mul (NFloat f0_6) (NInt (2 ^ 1024)) = Ok x)
  /\ ~ (exists cl r,
          size_limit "BUS" (lower "High") (NInt 4) (NInt 2000) (NInt (2 ^ 1024))
          = Ok (Sized cl r)).
Proof.
  cbv zeta. split; [reflexivity|]. split; [discriminate|].
  do 3 (split; [reflexivity|]).
  assert (Hsz : size_limit "BUS" (lower "High") (NInt 4) (NInt 2000) (NInt (2 ^ 1024))
                = Raise OverflowError) by (vm_compute; reflexivity).
  assert (Hmul : py_mul (NFloat f0_6) (NInt (2 ^ 1024)) = Raise OverflowError)
    by (vm_compute; reflexivity).
  split; [vm_compute; reflexivity|]. split.
  - intros (x & H). rewrite Hmul in H. discriminate.
  - intros (cl & r & H). rewrite Hsz in H. discriminate.
Qed.

(** C7 (amended): past the four gates, a business customer of quality
    Moderate, High or Highest with 2 to 5 months on the platform is sized at
    [min(0.6 * median, 150000)] whenever [0.6 * median] has a value, and the
    call returns what the final block makes of that limit; [0.6 * median]
    has no value only for an [int] median too large for a float, and the
    call then raises [OverflowError].  Scenario 3 returns Accept with
    60000.0. *)
Theorem C7_bus_moderate_2_to_5 :
  (forall (a s m len : value) (b q l : string) (ntx sum med ln : num),
     as_num a = Some ntx -> as_num s = Some sum ->
     as_num m = Some med -> as_num len = Some ln ->
     str_in (lower l) listing_levels = true ->
     lower l <> "neg" ->
     py_le ntx (NInt 1) = false ->
     py_lt sum (NInt 1000) = false ->
     str_in (upper b) ["LIMITED_COMPANY"; "PARTNERSHIP"] = true ->
     str_in (lower q) ["moderate"; "high"; "highest"] = true ->
     py_le (NInt 2) ln = true -> py_le ln (NInt 5) = true ->
     match py_mul (NFloat f0_6) med with
     | Ok x =>
         size_limit "BUS" (lower q) ln sum med
         = Ok (Sized (py_min x (NInt 150000)) reason_default)
         /\ evaluate (profile a s m b q l len)
            = finalize "Decline" (py_min x (NInt 150000)) reason_default
     | Raise e =>
         e = OverflowError
         /\ (exists z, med = NInt z /\ float_of_int z = Raise OverflowError)
         /\ size_limit "BUS" (lower q) ln sum med = Raise OverflowError
         /\ evaluate (profile a s m b q l len) = Raise OverflowError
     end)
  /\ evaluate (profile (VInt 3) (VInt 2000) (VInt 100000) "PARTNERSHIP" "High" "Pos"
                (VInt 4))
     = Ok ("Accept", NFloat (b64_of_Z 60000), reason_default).
Proof.
  split; [|vm_compute; reflexivity].
  intros a s m len b q l ntx sum med ln Ha Hs Hm Hl Hli Hneg H1 H2 Hb Hq Hlo Hhi.
  apply String.eqb_neq in Hneg.
  pose proof (py_le_2_not_le_1 _ Hlo) as Hnew.
  assert (Hsz : size_limit "BUS" (lower q) ln sum med
                = (x <- py_mul (NFloat f0_6) med ;;
                   Ok (Sized (py_min x (NInt 150000)) reason_default))).
  { unfold size_limit, leaf. str_cases Hq; eval_str; cbv iota;
      rewrite Hnew, Hlo, Hhi; reflexivity. }
  assert (Hev : evaluate (profile a s m b q l len)
                = (sz <- size_limit "BUS" (lower q) ln sum med ;;
                   match sz with
                   | Return reason => decline reason
                   | Sized credit_limit reason => finalize "Decline" credit_limit reason
                   end)).
  { validated. rewrite Hneg, H1, H2.
    str_cases Hq; str_cases Hb; eval_str; cbv iota; cbn [negb]; reflexivity. }
  rewrite Hev, Hsz. clear Hev Hsz.
  destruct (py_mul (NFloat f0_6) med) as [x|e] eqn:Hx; cbn [bind].
  - split; reflexivity.
  - rewrite py_mul_float in Hx.
    destruct (to_float med) as [fm|e'] eqn:Hf; cbn [bind] in Hx; [discriminate|].
    assert (e' = e) by congruence. subst e'.
    destruct (to_float_raise _ _ Hf) as (-> & z & -> & Hz).
    split; [reflexivity|]. split; [exists z; split; [reflexivity|exact Hz]|].
    split; reflexivity.
Qed.

(** Scenario 3 is sized at [min(60000.0, 150000)]. *)
Lemma C7_bus_moderate_2_to_5_witness :
  size_limit "BUS" (lower "High") (NInt 4) (NInt 2000) (NInt 100000)
  = Ok (Sized (py_min (NFloat (b64_of_Z 60000)) (NInt 150000)) reason_default).
Proof.
  generalize (proj1 C7_bus_moderate_2_to_5 (VInt 3) (VInt 2000) (VInt 100000) (VInt 4)
                "PARTNERSHIP" "High" "Pos" (NInt 3) (NInt 2000) (NInt 100000) (NInt 4)
                eq_refl eq_refl eq_refl eq_refl eq_refl
                ltac:(discriminate) eq_refl eq_refl eq_refl eq_refl eq_refl eq_refl).
  change (py_mul (NFloat f0_6) (NInt 100000)) with (Ok (NFloat (b64_of_Z 60000))).
  intros [H _]. exact H.
Defined.

(* ------------------------------------------------------------------ *)
(** ** Case-insensitivity                                               *)
(* ------------------------------------------------------------------ *)



(* ------------------------------------------------------------------ *)
(** ** Dead branches                                                    *)
(* ------------------------------------------------------------------ *)

Lemma not_in_returned_reasons r :
  existsb (String.eqb r) returned_reasons = false -> ~ In r returned_reasons.
Proof.
  intros H Hin. apply Bool.not_true_iff_false in H. apply H.
  apply existsb_exists. exists r. split; [exact Hin|apply String.eqb_refl].
Qed.

(** C9: the forced-zero leaf of the limit algorithm is never taken once
    gate 3 has let the profile through, in either category arm, and no
    call, on any input, returns its reason. *)
Theorem C9_sum_branch_unreachable :
  (forall (category quality : string) (ln sum med : num) (sz : sizing),
     py_lt sum (NInt 1000) = false ->
     size_limit category quality ln sum med = Ok sz ->
     sz <> Sized (NInt 0) reason_sum_no_limit)
  /\ (forall (a s m b q l len : value) (d : string) (lim : num) (r : string),
        set_credit_limit a s m b q l len = Ok (d, lim, r) ->
        r <> reason_sum_no_limit).
Proof.
  split.
  - intros c q ln sum med sz Hs Hsz ->.
    apply size_limit_reason in Hsz; [discriminate|exact Hs].
  - intros a s m b q l len d lim r H ->.
    apply returned_reason_cases in H. revert H.
    apply not_in_returned_reasons. reflexivity.
Qed.

Lemma C9_sum_branch_unreachable_witness :
  set_credit_limit (VInt 5) (VInt 5000) (VInt 10000) (VStr "INDIVIDUAL")
    (VStr "Moderate") (VStr "Pos") (VInt 10)
  = Ok ("Accept", NFloat (b64_of_Z 4000), reason_default)
  /\ reason_default <> reason_sum_no_limit.
Proof.
  split; [vm_compute; reflexivity|].
  apply (proj2 C9_sum_branch_unreachable (VInt 5) (VInt 5000) (VInt 10000)
           (VStr "INDIVIDUAL") (VStr "Moderate") (VStr "Pos") (VInt 10)
           "Accept" (NFloat (b64_of_Z 4000)) reason_default).
  vm_compute. reflexivity.
Defined.

(** C10: no call, on any input, returns the eligible-but-zero reason, and
    the final block entered with decision Decline never selects it. *)
Theorem C10_eligible_zero_unreachable :
  (forall (cl : num) (r d : string) (lim : num) (r' : string),
     finalize "Decline" cl r = Ok (d, lim, r') -> r' = r)
  /\ (forall (a s m b q l len : value) (d : string) (lim : num) (r : string),
        set_credit_limit a s m b q l len = Ok (d, lim, r) ->
        r <> reason_eligible_zero).
Proof.
  split.
  - intros cl r d lim r' H. now apply finalize_decline in H.
  - intros a s m b q l len d lim r H ->.
    apply returned_reason_cases in H. revert H.
    apply not_in_returned_reasons. reflexivity.
Qed.

Lemma C10_eligible_zero_unreachable_witness :
  set_credit_limit (VInt 5) (VInt 5000) (VInt 10) (VStr "INDIVIDUAL")
    (VStr "Low") (VStr "Pos") (VInt 4)
  = Ok ("Accept", NFloat (S754_zero false), reason_default)
  /\ reason_default <> reason_eligible_zero.
Proof.
  split; [vm_compute; reflexivity|].
  apply (proj2 C10_eligible_zero_unreachable (VInt 5) (VInt 5000) (VInt 10)
           (VStr "INDIVIDUAL") (VStr "Low") (VStr "Pos") (VInt 4)
           "Accept" (NFloat (S754_zero false)) reason_default).
  vm_compute. reflexivity.
Defined.

(* ------------------------------------------------------------------ *)
(** ** binary64 rounding: sign and magnitude of a rounded result        *)
(* ------------------------------------------------------------------ *)

Lemma digits2_pos_bounds p :
  2 ^ (Zpos (digits2_pos p) - 1) <= Zpos p < 2 ^ Zpos (digits2_pos p).
Proof.
  induction p as [p IH|p IH|]; cbn [digits2_pos].
  - rewrite Pos2Z.inj_succ.
    replace (Z.succ (Zpos (digits2_pos p)) - 1) with (Zpos (digits2_pos p) - 1 + 1) by lia.
    rewrite Z.pow_succ_r by lia. rewrite Z.pow_add_r by lia. lia.
  - rewrite Pos2Z.inj_succ.
    replace (Z.succ (Zpos (digits2_pos p)) - 1) with (Zpos (digits2_pos p) - 1 + 1) by lia.
    rewrite Z.pow_succ_r by lia. rewrite Z.pow_add_r by lia. lia.
  - cbn. lia.
Qed.

(** A non-negative integer below [2 ^ k] has at most [k] binary digits. *)
Lemma Zdigits2_le m k : 0 <= k -> 0 <= m < 2 ^ k -> Zdigits2 m <= k.
Proof.
  intros Hk [H0 Hm]. destruct m as [|p|p]; cbn [Zdigits2]; [lia| |lia].
  pose proof (digits2_pos_bounds p) as [Hlo _].
  destruct (Z_le_gt_dec (Zpos (digits2_pos p)) k) as [|Hgt]; [assumption|exfalso].
  assert (2 ^ k <= 2 ^ (Zpos (digits2_pos p) - 1)) by (apply Z.pow_le_mono_r; lia).
  lia.
Qed.

Lemma shr_1_m mrs : 0 <= shr_m mrs -> shr_m (shr_1 mrs) = shr_m mrs / 2.
Proof.
  destruct mrs as [m r s]. cbn [shr_m shr_1]. intros H.
  destruct m as [|[p|p|]|p]; cbn [shr_m]; try reflexivity.
  - rewrite Pos2Z.inj_xI. apply Z.div_unique with (r := 1); lia.
  - rewrite Pos2Z.inj_xO. apply Z.div_unique with (r := 0); lia.
  - lia.
Qed.

Lemma iter_shr_1_m p : forall mrs,
  0 <= shr_m mrs -> shr_m (iter_pos shr_1 p mrs) = shr_m mrs / 2 ^ Zpos p.
Proof.
  assert (Hnn : forall mrs, 0 <= shr_m mrs -> 0 <= shr_m (shr_1 mrs)).
  { intros mrs H. rewrite shr_1_m by assumption. apply Z.div_pos; lia. }
  induction p as [p IH|p IH|]; intros mrs H; cbn [iter_pos].
  - rewrite IH, IH, shr_1_m; auto.
    + rewrite !Z.div_div by lia. f_equal.
      rewrite Pos2Z.inj_xI, <- !Z.pow_add_r, <- Z.pow_succ_r by lia. f_equal. lia.
    + rewrite IH by auto. apply Z.div_pos; [auto|lia].
  - rewrite IH, IH; auto.
    + rewrite !Z.div_div by lia. f_equal.
      rewrite Pos2Z.inj_xO, <- !Z.pow_add_r by lia. f_equal. lia.
    + rewrite IH by auto. apply Z.div_pos; [auto|lia].
  - rewrite shr_1_m by assumption. reflexivity.
Qed.

Lemma shr_record_of_loc_m m l : shr_m (shr_record_of_loc m l) = m.
Proof. destruct l as [|[]]; reflexivity. Qed.

(** [shr_fexp] divides the mantissa by a power of two and raises the
    exponent by as much, up to the exponent [fexp] asks for. *)
Lemma shr_fexp_m m e l mrs e' :
  0 <= m -> shr_fexp prec emax m e l = (mrs, e') ->
  e <= e' /\ shr_m mrs = m / 2 ^ (e' - e)
  /\ (e' = e \/ e' = fexp prec emax (Zdigits2 m + e)).
Proof.
  intros Hm. unfold shr_fexp, shr.
  destruct (fexp prec emax (Zdigits2 m + e) - e) as [|p|p] eqn:Hd; intros H;
    inversion H; subst; clear H.
  - rewrite Z.sub_diag, Z.pow_0_r, Z.div_1_r, shr_record_of_loc_m. lia.
  - rewrite iter_shr_1_m by (rewrite shr_record_of_loc_m; assumption).
    rewrite shr_record_of_loc_m.
    replace (e + Zpos p - e) with (Zpos p) by lia. lia.
  - rewrite Z.sub_diag, Z.pow_0_r, Z.div_1_r, shr_record_of_loc_m. lia.
Qed.

Lemma round_nearest_even_bounds m l :
  m <= round_nearest_even m l <= m + 1.
Proof. destruct l as [|[]]; cbn [round_nearest_even]; try lia. destruct (Z.even m); lia. Qed.

Lemma div_pow2_nonneg m k : 0 <= m -> 0 <= k -> 0 <= m / 2 ^ k.
Proof. intros Hm Hk. apply Z.div_pos; [assumption|]. apply Z.pow_pos_nonneg; lia. Qed.

(** Rounding a non-negative mantissa keeps the sign and gives no NaN. *)
Lemma binary_round_aux_sign s m e l :
  0 <= m ->
  match binary_round_aux prec emax s m e l with
  | S754_zero s' | S754_infinity s' | S754_finite s' _ _ => s' = s
  | S754_nan => False
  end.
Proof.
  intros Hm. unfold binary_round_aux.
  destruct (shr_fexp prec emax m e l) as [mrs1 e1] eqn:H1.
  destruct (shr_fexp prec emax _ e1 loc_Exact) as [mrs2 e2] eqn:H2.
  apply shr_fexp_m in H1; [|assumption]. destruct H1 as (Hle1 & Hm1 & _).
  assert (0 <= shr_m mrs1) by (rewrite Hm1; apply div_pow2_nonneg; lia).
  pose proof (round_nearest_even_bounds (shr_m mrs1) (loc_of_shr_record mrs1)).
  apply shr_fexp_m in H2; [|lia]. destruct H2 as (Hle2 & Hm2 & _).
  assert (0 <= shr_m mrs2) by (rewrite Hm2; apply div_pow2_nonneg; lia).
  destruct (shr_m mrs2); [reflexivity| |lia].
  destruct (e2 <=? emax - prec); reflexivity.
Qed.

Lemma fexp_le B x : -1074 <= B -> x <= B + 53 -> fexp prec emax x <= B.
Proof. unfold fexp, emin, prec, emax. lia. Qed.

(** A mantissa below [2 ^ (B - e)] rounds to a value of at most [2 ^ B]. *)
Lemma binary_round_aux_bound s m e l B :
  -1074 <= B <= 971 -> e <= B -> 0 <= m < 2 ^ (B - e) ->
  match binary_round_aux prec emax s m e l with
  | S754_zero s' => s' = s
  | S754_finite s' m' e' => s' = s /\ e' <= B /\ Zpos m' <= 2 ^ (B - e')
  | _ => False
  end.
Proof.
  intros HB He Hm. unfold binary_round_aux.
  destruct (shr_fexp prec emax m e l) as [mrs1 e1] eqn:H1.
  destruct (shr_fexp prec emax _ e1 loc_Exact) as [mrs2 e2] eqn:H2.
  apply shr_fexp_m in H1; [|lia]. destruct H1 as (Hle1 & Hm1 & He1).
  assert (Hd : Zdigits2 m <= B - e) by (apply Zdigits2_le; lia).
  assert (He1B : e1 <= B).
  { destruct He1 as [->| ->]; [assumption|]. apply fexp_le; lia. }
  assert (Hp1 : 0 < 2 ^ (e1 - e)) by (apply Z.pow_pos_nonneg; lia).
  assert (Hb1 : 0 <= shr_m mrs1 < 2 ^ (B - e1)).
  { rewrite Hm1. split; [apply div_pow2_nonneg; lia|].
    apply Z.div_lt_upper_bound; [lia|].
    rewrite <- Z.pow_add_r by lia. replace (e1 - e + (B - e1)) with (B - e) by lia. lia. }
  pose proof (round_nearest_even_bounds (shr_m mrs1) (loc_of_shr_record mrs1)) as Hr.
  set (m2 := round_nearest_even (shr_m mrs1) (loc_of_shr_record mrs1)) in *.
  apply shr_fexp_m in H2; [|lia]. destruct H2 as (Hle2 & Hm2 & He2).
  assert (Hd2 : Zdigits2 m2 <= B - e1 + 1).
  { apply Zdigits2_le; [lia|]. rewrite Z.pow_add_r, Z.pow_1_r by lia. lia. }
  assert (He2B : e2 <= B).
  { destruct He2 as [->| ->]; [assumption|]. apply fexp_le; lia. }
  assert (Hp2 : 0 < 2 ^ (e2 - e1)) by (apply Z.pow_pos_nonneg; lia).
  assert (Hb2 : 0 <= shr_m mrs2 <= 2 ^ (B - e2)).
  { rewrite Hm2. split; [apply div_pow2_nonneg; lia|].
    apply Z.div_le_upper_bound; [lia|].
    rewrite <- Z.pow_add_r by lia. replace (e2 - e1 + (B - e2)) with (B - e1) by lia. lia. }
  destruct (shr_m mrs2) as [|p|p]; [reflexivity| |lia].
  replace (e2 <=? emax - prec) with true
    by (symmetry; apply Z.leb_le; unfold emax, prec; lia).
  repeat split; try reflexivity; lia.
Qed.

(** What [min(x, cap)] keeps of a positive finite float: its exact value
    is at most the cap. *)
Lemma float_le_cap m e c :
  float_cmp_int (S754_finite false m e) c <> Some Gt ->
  if 0 <=? e then Zpos m * 2 ^ e <= c else Zpos m <= c * 2 ^ (- e).
Proof.
  cbn [float_cmp_int cond_Zopp]. destruct (0 <=? e); intros H.
  - destruct (Z.compare_spec (Zpos m * 2 ^ e) c); try lia. now elim H.
  - destruct (Z.compare_spec (Zpos m) (c * 2 ^ (- e))); try lia. now elim H.
Qed.

(** Dividing a positive float of at most 350000 by [10.0] gives a float of
    at most [2 ^ 16]. *)
Lemma div_ten_bound m e c :
  0 < c <= 350000 ->
  float_cmp_int (S754_finite false m e) c <> Some Gt ->
  match SFdiv prec emax (S754_finite false m e) (b64_of_Z 10) with
  | S754_zero s' => s' = false
  | S754_finite s' m' e' => s' = false /\ e' <= 16 /\ Zpos m' <= 2 ^ (16 - e')
  | _ => False
  end.
Proof.
  intros Hc Hcmp. apply float_le_cap in Hcmp.
  change (b64_of_Z 10) with (S754_finite false 5629499534213120 (-49)).
  cbn [SFdiv xorb]. unfold SFdiv_core_binary.
  change (Zdigits2 (Zpos 5629499534213120)) with 53.
  cbn [Zdigits2].
  pose proof (digits2_pos_bounds m) as [Hdlo _].
  set (D := Zpos (digits2_pos m)) in *.
  assert (HD : D + e <= 19).
  { destruct (Z_le_gt_dec (D + e) 19) as [|Hgt]; [assumption|exfalso].
    destruct (0 <=? e) eqn:He.
    - apply Z.leb_le in He.
      assert (2 ^ 19 <= 2 ^ (D - 1 + e)) by (apply Z.pow_le_mono_r; lia).
      rewrite Z.pow_add_r in H by (unfold D; lia).
      assert (0 < 2 ^ e) by (apply Z.pow_pos_nonneg; lia).
      assert (2 ^ (D - 1) * 2 ^ e <= Zpos m * 2 ^ e) by nia.
      change (2 ^ 19) with 524288 in H. lia.
    - apply Z.leb_gt in He.
      assert (2 ^ (19 + - e) <= 2 ^ (D - 1)) by (apply Z.pow_le_mono_r; lia).
      rewrite Z.pow_add_r in H by lia.
      assert (0 < 2 ^ (- e)) by (apply Z.pow_pos_nonneg; lia).
      change (2 ^ 19) with 524288 in H. nia. }
  set (e' := Z.min (fexp prec emax (D + e - (53 + -49))) (e - -49)).
  assert (He' : e' <= -38 /\ e' <= e + 49).
  { unfold e', fexp, emin, prec, emax. lia. }
  set (t := - e').
  assert (Ht : 38 <= t) by (unfold t; lia).
  set (s := e - -49 - e').
  assert (Hs : s = e + 49 + t) by (unfold s, t; lia).
  set (m' := match s with Z0 => Zpos m | Zpos _ => Z.shiftl (Zpos m) s | Zneg _ => 0 end).
  assert (Hm' : m' = Zpos m * 2 ^ s).
  { unfold m'. destruct s as [|p|p] eqn:Es.
    - rewrite Z.pow_0_r. lia.
    - apply Z.shiftl_mul_pow2. lia.
    - lia. }
  assert (HP : 0 < 2 ^ t) by (apply Z.pow_pos_nonneg; lia).
  assert (Hub : m' <= c * (562949953421312 * 2 ^ t)).
  { rewrite Hm'. destruct (0 <=? e) eqn:He.
    - apply Z.leb_le in He.
      replace s with (e + (49 + t)) by lia.
      rewrite Z.pow_add_r, (Z.pow_add_r 2 49 t) by lia.
      change (2 ^ 49) with 562949953421312.
      assert (0 < 2 ^ e) by (apply Z.pow_pos_nonneg; lia). nia.
    - apply Z.leb_gt in He.
      assert (Hsplit : 2 ^ (- e) * 2 ^ s = 562949953421312 * 2 ^ t).
      { rewrite <- Z.pow_add_r by lia. replace (- e + s) with (49 + t) by lia.
        rewrite Z.pow_add_r by lia. reflexivity. }
      assert (0 < 2 ^ s) by (apply Z.pow_pos_nonneg; lia).
      assert (0 < 2 ^ (- e)) by (apply Z.pow_pos_nonneg; lia).
      rewrite <- Hsplit. nia. }
  pose proof (Z_div_mod m' 5629499534213120 eq_refl) as Hdiv.
  destruct (Z.div_eucl m' 5629499534213120) as [q r].
  destruct Hdiv as [Hq Hr].
  assert (Hm0 : 0 <= m') by (rewrite Hm'; apply Z.mul_nonneg_nonneg; lia).
  apply binary_round_aux_bound; [lia|lia|].
  replace (16 - e') with (16 + t) by (unfold t; lia).
  rewrite Z.pow_add_r by lia. change (2 ^ 16) with 65536.
  nia.
Qed.

(* ------------------------------------------------------------------ *)
(** ** binary64 rounding: integers below [2 ^ 53] are exact             *)
(* ------------------------------------------------------------------ *)

Lemma Zdigits2_unique x d :
  0 < d -> 2 ^ (d - 1) <= x < 2 ^ d -> Zdigits2 x = d.
Proof.
  intros Hd [Hlo Hhi].
  assert (Hx : 0 < x) by (assert (0 < 2 ^ (d - 1)) by (apply Z.pow_pos_nonneg; lia); lia).
  destruct x as [|p|p]; try lia. cbn [Zdigits2].
  pose proof (digits2_pos_bounds p) as [Hl Hh].
  set (D := Zpos (digits2_pos p)) in *.
  destruct (Z.lt_trichotomy D d) as [Hlt|[Heq|Hgt]]; [exfalso|exact Heq|exfalso].
  - assert (2 ^ D <= 2 ^ (d - 1)) by (apply Z.pow_le_mono_r; lia). lia.
  - assert (2 ^ d <= 2 ^ (D - 1)) by (apply Z.pow_le_mono_r; lia). lia.
Qed.

Lemma Zdigits2_shift w j :
  0 < w -> 0 <= j -> Zdigits2 (w * 2 ^ j) = Zdigits2 w + j.
Proof.
  intros Hw Hj. destruct w as [|p|p]; try lia. cbn [Zdigits2].
  pose proof (digits2_pos_bounds p) as [Hl Hh].
  set (D := Zpos (digits2_pos p)) in *.
  assert (0 < 2 ^ j) by (apply Z.pow_pos_nonneg; lia).
  apply Zdigits2_unique; [unfold D; lia|].
  replace (D + j - 1) with (D - 1 + j) by lia.
  rewrite !Z.pow_add_r by (unfold D; lia). nia.
Qed.

Lemma denotes_digits M E W :
  0 < W -> denotes M E W -> Zdigits2 M + E = Zdigits2 W.
Proof.
  intros HW [[HE ->]|[HE ->]].
  - assert (0 < 2 ^ E) by (apply Z.pow_pos_nonneg; lia).
    rewrite Zdigits2_shift by (try lia; nia). reflexivity.
  - rewrite Zdigits2_shift by lia. lia.
Qed.

(** Shifting out zero bits loses nothing. *)
Lemma shr_1_exact a :
  0 <= a -> shr_1 (Build_shr_record (2 * a) false false) = Build_shr_record a false false.
Proof. intros Ha. destruct a as [|p|p]; try lia; reflexivity. Qed.

Lemma pow2_xI p : 2 ^ Zpos p~1 = 2 * (2 ^ Zpos p * 2 ^ Zpos p).
Proof.
  replace (Zpos p~1) with (1 + (Zpos p + Zpos p)) by lia.
  rewrite !Z.pow_add_r by lia. reflexivity.
Qed.

Lemma pow2_xO p : 2 ^ Zpos p~0 = 2 ^ Zpos p * 2 ^ Zpos p.
Proof.
  replace (Zpos p~0) with (Zpos p + Zpos p) by lia.
  rewrite !Z.pow_add_r by lia. reflexivity.
Qed.

Lemma iter_shr_1_exact p : forall a,
  0 <= a ->
  iter_pos shr_1 p (Build_shr_record (a * 2 ^ Zpos p) false false)
  = Build_shr_record a false false.
Proof.
  induction p as [p IH|p IH|]; intros a Ha; cbn [iter_pos].
  - assert (0 < 2 ^ Zpos p) by (apply Z.pow_pos_nonneg; lia).
    replace (a * 2 ^ Zpos p~1) with (2 * ((a * 2 ^ Zpos p) * 2 ^ Zpos p))
      by (rewrite pow2_xI; ring).
    rewrite shr_1_exact by nia. rewrite IH by nia. apply IH. exact Ha.
  - assert (0 < 2 ^ Zpos p) by (apply Z.pow_pos_nonneg; lia).
    replace (a * 2 ^ Zpos p~0) with ((a * 2 ^ Zpos p) * 2 ^ Zpos p)
      by (rewrite pow2_xO; ring).
    rewrite IH by nia. apply IH. exact Ha.
  - rewrite Z.pow_1_r, Z.mul_comm. apply shr_1_exact. exact Ha.
Qed.

(** Rounding a mantissa that denotes an integer below [2 ^ 53] is exact. *)
Lemma binary_round_aux_exact s M E W :
  0 < W < 2 ^ 53 -> denotes M E W ->
  exists m' e',
    binary_round_aux prec emax s M E loc_Exact = S754_finite s m' e'
    /\ denotes (Zpos m') e' W.
Proof.
  intros HW Hden.
  pose proof (denotes_digits M E W (proj1 HW) Hden) as Hdig.
  assert (HdW : 1 <= Zdigits2 W <= 53).
  { destruct W as [|p|p]; try lia. cbn [Zdigits2].
    pose proof (digits2_pos_bounds p) as [Hl Hh]. split; [lia|].
    destruct (Z_le_gt_dec (Zpos (digits2_pos p)) 53) as [|Hgt]; [assumption|exfalso].
    assert (2 ^ 53 <= 2 ^ (Zpos (digits2_pos p) - 1)) by (apply Z.pow_le_mono_r; lia).
    lia. }
  assert (Hfexp : fexp prec emax (Zdigits2 M + E) = Zdigits2 W - 53).
  { rewrite Hdig. unfold fexp, emin, prec, emax. lia. }
  assert (HM : 0 < M).
  { destruct Hden as [[HE ->]|[HE ->]].
    - assert (0 < 2 ^ E) by (apply Z.pow_pos_nonneg; lia). nia.
    - assert (0 < 2 ^ (- E)) by (apply Z.pow_pos_nonneg; lia). nia. }
  assert (HE53 : E < 53).
  { destruct Hden as [[HE ->]|[HE _]]; [|lia].
    destruct (Z_lt_ge_dec E 53) as [|Hge]; [assumption|exfalso].
    assert (2 ^ 53 <= 2 ^ E) by (apply Z.pow_le_mono_r; lia). nia. }
  unfold binary_round_aux, shr_fexp. rewrite Hfexp.
  destruct (Zdigits2 W - 53 - E) as [|k|k] eqn:Hk; cbn [shr shr_record_of_loc].
  - (* already at the right exponent *)
    cbn [shr_m loc_of_shr_record round_nearest_even].
    rewrite Hfexp, Hk. cbn [shr shr_record_of_loc shr_m].
    destruct M as [|m|m]; try lia.
    replace (E <=? emax - prec) with true
      by (symmetry; apply Z.leb_le; unfold emax, prec; lia).
    exists m, E. split; [reflexivity|exact Hden].
  - (* a right shift by [k] zero bits *)
    destruct Hden as [[HE ->]|[HE ->]]; [lia|].
    set (E1 := Zdigits2 W - 53) in *.
    assert (HE1 : E1 <= 0) by (unfold E1; lia).
    replace (W * 2 ^ (- E)) with ((W * 2 ^ (- E1)) * 2 ^ Zpos k).
    2:{ rewrite <- Z.mul_assoc, <- Z.pow_add_r by lia. do 2 f_equal. lia. }
    assert (0 < 2 ^ (- E1)) by (apply Z.pow_pos_nonneg; lia).
    rewrite iter_shr_1_exact by nia.
    cbn [shr_m loc_of_shr_record round_nearest_even].
    replace (E + Zpos k) with E1 by lia.
    rewrite Zdigits2_shift by lia.
    replace (fexp prec emax (Zdigits2 W + - E1 + E1) - E1) with 0
      by (unfold fexp, emin, prec, emax, E1; lia).
    cbn [shr shr_record_of_loc shr_m].
    destruct (W * 2 ^ (- E1)) as [|m|m] eqn:Hm; try nia.
    replace (E1 <=? emax - prec) with true
      by (symmetry; apply Z.leb_le; unfold emax, prec; lia).
    exists m, E1. split; [reflexivity|].
    destruct (Z.eq_dec E1 0) as [H0|H0].
    + left. rewrite H0 in *. split; [lia|]. rewrite <- Hm. cbn. lia.
    + right. split; [lia|]. now rewrite Hm.
  - (* the exponent is already above the one asked for *)
    cbn [shr_m loc_of_shr_record round_nearest_even].
    rewrite Hfexp, Hk. cbn [shr shr_record_of_loc shr_m].
    destruct M as [|m|m]; try lia.
    replace (E <=? emax - prec) with true
      by (symmetry; apply Z.leb_le; unfold emax, prec; lia).
    exists m, E. split; [reflexivity|exact Hden].
Qed.

Lemma denotes_to_Z m e W :
  denotes (Zpos m) e W -> float_to_Z (S754_finite false m e) = Some W.
Proof.
  intros [[He ->]|[He Hm]]; cbn [float_to_Z cond_Zopp].
  - apply Z.leb_le in He. now rewrite He.
  - assert (0 < 2 ^ (- e)) by (apply Z.pow_pos_nonneg; lia).
    apply Z.leb_gt in He. rewrite He, Hm.
    rewrite Z.mod_mul, Z.div_mul by lia. reflexivity.
Qed.

Lemma pos_iter_xO d : forall p, Zpos (Pos.iter xO p d) = Zpos p * 2 ^ Zpos d.
Proof.
  induction d as [|d IH] using Pos.peano_ind; intros p.
  - cbn [Pos.iter]. rewrite Z.pow_1_r. lia.
  - rewrite Pos.iter_succ, Pos2Z.inj_xO, IH, Pos2Z.inj_succ, Z.pow_succ_r by lia. ring.
Qed.

(** The float of a positive integer below [2 ^ 53] denotes that integer. *)
Lemma b64_of_Z_exact n :
  0 < n < 2 ^ 53 ->
  exists m e, b64_of_Z n = S754_finite false m e /\ denotes (Zpos m) e n.
Proof.
  intros Hn. destruct n as [|p|p]; try lia.
  unfold b64_of_Z, binary_normalize, binary_round, shl_align.
  destruct (fexp prec emax (Zpos (digits2_pos p) + 0) - 0) as [|d|d] eqn:Hd;
    apply binary_round_aux_exact; try assumption.
  - left. split; [lia|]. rewrite Z.pow_0_r. lia.
  - left. split; [lia|]. rewrite Z.pow_0_r. lia.
  - right. split; [lia|]. rewrite pos_iter_xO. do 2 f_equal. lia.
Qed.

(** Multiplying a float that denotes [n] by [10.0] gives the float that
    denotes [10 * n], as long as that is below [2 ^ 53]. *)
Lemma times_ten_exact m e n :
  0 < n -> 10 * n < 2 ^ 53 -> denotes (Zpos m) e n ->
  float_to_Z (SFmul prec emax (S754_finite false m e) (b64_of_Z 10)) = Some (10 * n).
Proof.
  intros Hn Hlt Hden.
  change (b64_of_Z 10) with (S754_finite false 5629499534213120 (-49)).
  cbn [SFmul xorb].
  destruct (binary_round_aux_exact false (Zpos (m * 5629499534213120)) (e + -49) (10 * n))
    as (m' & e' & -> & Hd'); [lia| |now apply denotes_to_Z].
  rewrite Pos2Z.inj_mul.
  destruct Hden as [[He ->]|[He ->]].
  - destruct (Z_le_gt_dec 49 e) as [H49|H49].
    + left. split; [lia|].
      replace e with (e + -49 + 49) at 1 by lia.
      rewrite (Z.pow_add_r 2 (e + -49) 49) by lia.
      change (2 ^ 49) with 562949953421312. lia.
    + right. split; [lia|].
      assert (Hsplit : 2 ^ e * 2 ^ (- (e + -49)) = 562949953421312).
      { rewrite <- Z.pow_add_r by lia. replace (e + - (e + -49)) with 49 by lia.
        reflexivity. }
      replace (10 * (Zpos m * 2 ^ e) * 2 ^ (- (e + -49)))
        with (10 * Zpos m * (2 ^ e * 2 ^ (- (e + -49)))) by ring.
      rewrite Hsplit. lia.
  - right. split; [lia|].
    replace (- (e + -49)) with (- e + 49) by lia.
    rewrite Z.pow_add_r by lia. change (2 ^ 49) with 562949953421312. lia.
Qed.

(** Rounding a float of at most [2 ^ 16] to an integer gives a zero or a
    float that denotes an integer of at most [2 ^ 16 + 1]. *)
Lemma round_half_even_small m e :
  e <= 16 -> Zpos m <= 2 ^ (16 - e) ->
  round_half_even (S754_finite false m e) = S754_zero false
  \/ exists m' e' n,
       round_half_even (S754_finite false m e) = S754_finite false m' e'
       /\ denotes (Zpos m') e' n /\ 0 < n <= 65537.
Proof.
  intros He Hm. cbn [round_half_even].
  destruct (0 <=? e) eqn:H0.
  - apply Z.leb_le in H0. right. exists m, e, (Zpos m * 2 ^ e).
    split; [reflexivity|]. split; [left; split; [lia|reflexivity]|].
    assert (0 < 2 ^ e) by (apply Z.pow_pos_nonneg; lia).
    assert (Hsplit : 2 ^ (16 - e) * 2 ^ e = 65536).
    { rewrite <- Z.pow_add_r by lia. replace (16 - e + e) with 16 by lia. reflexivity. }
    nia.
  - apply Z.leb_gt in H0. cbv zeta.
    assert (Hp : 0 < 2 ^ (- e)) by (apply Z.pow_pos_nonneg; lia).
    assert (Hq : 0 <= Zpos m / 2 ^ (- e) <= 65536).
    { split; [apply Z.div_pos; lia|].
      apply Z.div_le_upper_bound; [lia|].
      replace (16 - e) with (- e + 16) in Hm by lia.
      rewrite Z.pow_add_r in Hm by lia. change (2 ^ 16) with 65536 in Hm. lia. }
    set (q := Zpos m / 2 ^ (- e)) in *.
    set (n := match 2 * (Zpos m mod 2 ^ (- e)) ?= 2 ^ (- e) with
              | Eq => if Z.even q then q else q + 1
              | Lt => q
              | Gt => q + 1
              end).
    assert (Hn : 0 <= n <= 65537).
    { unfold n. destruct (_ ?= _); [destruct (Z.even q)| |]; lia. }
    destruct (n =? 0) eqn:Hz; [left; reflexivity|right].
    apply Z.eqb_neq in Hz. cbn [cond_Zopp].
    destruct (b64_of_Z_exact n) as (m' & e' & Heq & Hden).
    { change (2 ^ 53) with 9007199254740992. lia. }
    exists m', e', n. split; [exact Heq|]. split; [exact Hden|lia].
Qed.

(** A float kept by [min(x, cap)] is rounded to a non-negative multiple
    of 10. *)
Lemma round_to_ten_float x c :
  0 < c <= 350000 ->
  match x with
  | S754_zero _ => True
  | S754_finite s _ _ => s = false /\ float_cmp_int x c <> Some Gt
  | _ => False
  end ->
  exists l, round_to_ten (NFloat x) = Ok l /\ nonneg_multiple_of_10 l = true.
Proof.
  intros Hc Hx. unfold round_to_ten, py_truediv.
  change (to_float (NInt 10)) with (Ok (b64_of_Z 10)).
  cbn [to_float bind]. change (is_zero (b64_of_Z 10)) with false. cbv iota.
  cbn [bind py_round0 py_mul to_float].
  change (float_of_int 10) with (Ok (b64_of_Z 10)). cbn [bind].
  eexists. split; [reflexivity|].
  unfold nonneg_multiple_of_10. cbn [num_to_Z].
  destruct x as [s|s| |s m e]; try contradiction.
  - reflexivity.
  - destruct Hx as [-> Hcmp].
    pose proof (div_ten_bound m e c Hc Hcmp) as Hdiv.
    destruct (SFdiv prec emax (S754_finite false m e) (b64_of_Z 10))
      as [s'|s'| |s' m1 e1]; try contradiction.
    + reflexivity.
    + destruct Hdiv as (-> & He1 & Hm1).
      destruct (round_half_even_small m1 e1 He1 Hm1) as [->|(m' & e' & n & -> & Hden & Hn)].
      * reflexivity.
      * rewrite (times_ten_exact m' e' n) by (try assumption; lia).
        replace (0 <=? 10 * n) with true by (symmetry; apply Z.leb_le; lia).
        rewrite Z.mul_comm, Z.mod_mul by lia. reflexivity.
Qed.

(* ------------------------------------------------------------------ *)
(** ** The returned limit                                               *)
(* ------------------------------------------------------------------ *)

Lemma leaves_ok f c : In (f, c) leaves -> leaf_ok (f, c) = true.
Proof.
  assert (H : forallb leaf_ok leaves = true) by (vm_compute; reflexivity).
  rewrite forallb_forall in H. apply H.
Qed.

Lemma nonneg_real_num v n :
  nonneg_real v = true -> as_num v = Some n ->
  match n with
  | NInt z => 0 <= z
  | NFloat (S754_zero _) => True
  | NFloat (S754_finite s _ _) => s = false
  | NFloat _ => False
  end.
Proof.
  unfold nonneg_real. intros H Hn. rewrite Hn in H. destruct n as [z|[s|s| |s m e]]; try discriminate.
  - now apply Z.leb_le.
  - exact I.
  - now destruct s.
Qed.

(** The product of a positive factor and a non-negative median. *)
Lemma mul_nonneg mf ef (v : value) med x :
  nonneg_real v = true -> as_num v = Some med ->
  py_mul (NFloat (S754_finite false mf ef)) med = Ok x ->
  exists g, x = NFloat g /\ nonneg_float g.
Proof.
  intros Hv Hn. pose proof (nonneg_real_num v med Hv Hn) as Hmed. clear Hv Hn.
  unfold py_mul. cbn [to_float bind].
  assert (Hf : forall fm, to_float med = Ok fm ->
                match fm with
                | S754_zero _ => True
                | S754_finite s _ _ => s = false
                | _ => False
                end).
  { intros fm. destruct med as [z|g]; cbn [to_float].
    - unfold float_of_int, b64_of_Z, binary_normalize.
      destruct z as [|p|p]; try lia.
      + intros H; inversion H. exact I.
      + unfold binary_round.
        destruct (shl_align p 0 _) as [mz ez].
        pose proof (binary_round_aux_sign false (Zpos mz) ez loc_Exact) as Hs.
        destruct (binary_round_aux prec emax false (Zpos mz) ez loc_Exact);
          intros H; inversion H; subst; try exact I; try contradiction.
        apply Hs. lia.
    - intros H; inversion H; subst. exact Hmed. }
  destruct (to_float med) as [fm|]; cbn [bind]; [|discriminate].
  specialize (Hf fm eq_refl). intros H; inversion H; subst; clear H.
  eexists; split; [reflexivity|].
  destruct fm as [s|s| |s m e]; try contradiction; cbn [SFmul xorb nonneg_float].
  - exact I.
  - subst s.
    pose proof (binary_round_aux_sign false (Zpos (mf * m)) (ef + e) loc_Exact) as Hs.
    destruct (binary_round_aux prec emax false _ _ loc_Exact); cbn [nonneg_float];
      try exact I; apply Hs; lia.
Qed.

(** [min(x, cap)] is the cap, or a zero, or a positive float of at most
    the cap. *)
Lemma min_cases g c :
  nonneg_float g -> 0 < c ->
  py_min (NFloat g) (NInt c) = NInt c
  \/ (py_min (NFloat g) (NInt c) = NFloat g
      /\ match g with
         | S754_zero _ => True
         | S754_finite s _ _ => s = false /\ float_cmp_int g c <> Some Gt
         | _ => False
         end).
Proof.
  intros Hg Hc. unfold py_min, py_lt, num_compare.
  destruct g as [s|s| |s m e]; cbn [nonneg_float] in Hg; try contradiction.
  - right. cbn [float_cmp_int option_map].
    destruct (Z.compare_spec 0 c); try lia. cbn. auto.
  - subst s. left. reflexivity.
  - subst s. destruct (float_cmp_int (S754_finite false m e) c) as [[]|] eqn:Hcmp;
      cbn [option_map CompOpp]; auto; right; split; auto; split; auto; discriminate.
Qed.

(** The limit the sizing leaves behind is 0 or a leaf of the table. *)
Lemma size_limit_shape cat q ln sum med cl r :
  size_limit cat q ln sum med = Ok (Sized cl r) ->
  cl = NInt 0
  \/ exists f c x, In (f, c) leaves /\ py_mul (NFloat f) med = Ok x
                   /\ cl = py_min x (NInt c).
Proof.
  unfold size_limit.
  repeat match goal with
  | |- context [if ?b then _ else _] => destruct b
  end;
  intros H;
  try (apply leaf_inv in H; destruct H as (x & Hx & Heq); inversion Heq; subst;
       right; eexists _, _, x; split; [|split; [exact Hx|reflexivity]];
       unfold leaves; cbn [In]; tauto);
  inversion H; auto.
Qed.

(** A returned limit is the [int] 0 of a decline, or the sized limit
    after the final rounding. *)
Lemma returned_limit_cases a s m b q l len d lim r :
  set_credit_limit a s m b q l len = Ok (d, lim, r) ->
  lim = NInt 0
  \/ exists med cat qual ln sum cl r0,
       as_num m = Some med
       /\ size_limit cat qual ln sum med = Ok (Sized cl r0)
       /\ round_to_ten cl = Ok lim.
Proof.
  unfold set_credit_limit, require_numeric, require_str, decline.
  destruct (as_num a) as [ntx|]; [|discriminate].
  destruct (as_num s) as [sum|]; [|discriminate].
  destruct (as_num m) as [med|]; [|discriminate].
  destruct (as_num len) as [ln|]; [|discriminate].
  cbn [bind].
  destruct q as [| | | |q|]; try discriminate. cbn [bind].
  destruct (str_in (lower q) quality_levels); [|discriminate]. cbn [negb].
  destruct (attr_lower l) as [l'|]; [|discriminate]. cbn [bind].
  destruct (value_in l' listing_levels); [|discriminate]. cbn [negb].
  destruct b as [| | | |b|]; try discriminate. cbn [bind].
  destruct (str_in (upper b) business_types); [|discriminate]. cbn [negb].
  destruct (value_eq_str l' "neg"); [intros H; inversion H; auto|].
  destruct (py_le ntx (NInt 1)); [intros H; inversion H; auto|].
  destruct (py_lt sum (NInt 1000)); [intros H; inversion H; auto|].
  destruct (String.eqb (lower q) "defaulter"); [intros H; inversion H; auto|].
  destruct (size_limit _ _ _ _ _) as [[r0|cl r0]|] eqn:Hsz; [| |discriminate]; cbn [bind].
  - intros H; inversion H; auto.
  - intros H. apply finalize_decline in H. destruct H as (_ & Hr & _).
    right. eauto 10.
Qed.

(** C5: on a valid profile every returned limit is a non-negative
    multiple of 10. *)
Theorem C5_limit_multiple_of_10 (p : CustomerProfile) (d : string) (lim : num)
    (r : string) :
  valid_profile p = true ->
  evaluate p = Ok (d, lim, r) ->
  nonneg_multiple_of_10 lim = true.
Proof.
  unfold valid_profile, evaluate. intros Hv Hev.
  rewrite !andb_true_iff in Hv.
  destruct Hv as ((((((_ & _) & Hm) & _) & _) & _) & _).
  apply returned_limit_cases in Hev.
  destruct Hev as [->|(med & cat & qual & ln & sum & cl & r0 & Hmed & Hsz & Hr)];
    [reflexivity|].
  apply size_limit_shape in Hsz.
  destruct Hsz as [->|(f & c & x & Hin & Hx & ->)].
  - vm_compute in Hr. inversion Hr. reflexivity.
  - apply leaves_ok in Hin. unfold leaf_ok in Hin.
    repeat (apply andb_true_iff in Hin; destruct Hin as [Hin ?]).
    destruct f as [| | |[] mf ef]; try discriminate.
    destruct (mul_nonneg mf ef _ med x Hm Hmed Hx) as (g & -> & Hg).
    assert (Hc : 0 < c <= 350000) by (split; [now apply Z.ltb_lt|now apply Z.leb_le]).
    destruct (min_cases g c Hg (proj1 Hc)) as [Hmin|[Hmin Hkeep]]; rewrite Hmin in Hr.
    + rewrite Hr in *. assumption.
    + destruct (round_to_ten_float g c Hc) as (l' & Hl' & Hok).
      { destruct g; try contradiction; auto. }
      rewrite Hr in Hl'. inversion Hl'. subst. exact Hok.
Qed.

Lemma C5_limit_multiple_of_10_witness :
  let p := profile (VInt 5) (VInt 5000) (VInt 10000) "INDIVIDUAL" "Moderate" "Pos"
             (VInt 10) in
  valid_profile p = true
  /\ evaluate p = Ok ("Accept", NFloat (b64_of_Z 4000), reason_default)
  /\ nonneg_multiple_of_10 (NFloat (b64_of_Z 4000)) = true.
Proof.
  cbv zeta. split; [vm_compute; reflexivity|]. split; [vm_compute; reflexivity|].
  apply (C5_limit_multiple_of_10
           (profile (VInt 5) (VInt 5000) (VInt 10000) "INDIVIDUAL" "Moderate" "Pos"
              (VInt 10))
           "Accept" (NFloat (b64_of_Z 4000)) reason_default);
    vm_compute; reflexivity.
Defined.

(* ------------------------------------------------------------------ *)
(** ** Decision and returned limit                                      *)
(* ------------------------------------------------------------------ *)

(** C1 fails at a valid profile with a small median: the limit sized at
    [0.2 * 10 = 2.0] is positive, so the decision is Accept, while the
    returned limit [round(2.0 / 10, 0) * 10] is [0.0], which is not
    greater than 0. *)
Theorem C1_accept_with_zero_limit :
  let p := profile (VInt 5) (VInt 5000) (VInt 10) "INDIVIDUAL" "Low" "Pos" (VInt 4) in
  valid_profile p = true
  /\ evaluate p = Ok ("Accept", NFloat (S754_zero false), reason_default)
  /\ py_gt (NFloat (S754_zero false)) (NInt 0) = false.
Proof. repeat split; vm_compute; reflexivity. Qed.

(* ------------------------------------------------------------------ *)
(** ** Further properties: the run after validation                     *)
(* ------------------------------------------------------------------ *)

Lemma leaves_of_leaves cat f c : In (f, c) (leaves_of cat) -> In (f, c) leaves.
Proof.
  unfold leaves_of, ind_leaves, bus_leaves, leaves.
  destruct (String.eqb (lower cat) "ind"); cbn [firstn skipn In]; tauto.
Qed.

(** Past the gates the quality is one of five levels. *)
Lemma quality_past_gate q :
  str_in q quality_levels = true -> String.eqb q "defaulter" = false ->
  In q ["lowest"; "low"; "moderate"; "high"; "highest"].
Proof.
  intros Hin Hd. apply str_in_cases in Hin. unfold quality_levels in Hin.
  cbn [In] in *. destruct Hin as [H|H]; [|tauto].
  subst q. discriminate.
Qed.

(** The limit algorithm past the gates, with a median that converts to a
    float: it returns early or takes a leaf of its category. *)
Lemma size_limit_run cat q ln sum med fm :
  In q ["lowest"; "low"; "moderate"; "high"; "highest"] ->
  py_lt sum (NInt 1000) = false ->
  to_float med = Ok fm ->
  (exists r, size_limit cat q ln sum med = Ok (Return r)
             /\ (r = reason_new_low_quality \/ r = reason_new))
  \/ (exists f c, In (f, c) (leaves_of cat)
        /\ size_limit cat q ln sum med
           = Ok (Sized (py_min (NFloat (SFmul prec emax f fm)) (NInt c)) reason_default)).
Proof.
  intros Hq Hsum Hm. unfold size_limit, leaf, leaves_of, ind_leaves, bus_leaves, leaves.
  rewrite !py_mul_float, Hm, Hsum. cbn [bind firstn skipn].
  cbn [In] in Hq.
  repeat (destruct Hq as [Hq|Hq]); try contradiction; subst q; eval_str; cbv iota;
  repeat match goal with
  | |- context [if ?b then _ else _] => destruct b
  end;
  try (left; eexists; split; [reflexivity|tauto]);
  right; eexists _, _; (split; [|reflexivity]); cbn [In]; tauto.
Qed.

(** With an [int] median too large for a float the limit algorithm past
    the gates returns early or raises. *)
Lemma size_limit_overflow cat q ln sum med e :
  In q ["lowest"; "low"; "moderate"; "high"; "highest"] ->
  py_lt sum (NInt 1000) = false ->
  to_float med = Raise e ->
  (exists r, size_limit cat q ln sum med = Ok (Return r)
             /\ (r = reason_new_low_quality \/ r = reason_new))
  \/ size_limit cat q ln sum med = Raise e.
Proof.
  intros Hq Hsum Hm. unfold size_limit, leaf.
  rewrite !py_mul_float, Hm, Hsum. cbn [bind].
  cbn [In] in Hq.
  repeat (destruct Hq as [Hq|Hq]); try contradiction; subst q; eval_str; cbv iota;
  repeat match goal with
  | |- context [if ?b then _ else _] => destruct b
  end;
  try (left; eexists; split; [reflexivity|tauto]);
  right; reflexivity.
Qed.

(** The final rounding of a sized limit never raises. *)
Lemma round_to_ten_sized_ok f c g :
  In (f, c) leaves -> exists lim, round_to_ten (py_min (NFloat g) (NInt c)) = Ok lim.
Proof.
  intros Hin. apply leaves_ok in Hin. unfold leaf_ok in Hin.
  repeat (apply andb_true_iff in Hin; destruct Hin as [Hin ?]).
  unfold py_min. destruct (py_lt (NInt c) (NFloat g)).
  - destruct (round_to_ten (NInt c)); [eauto|discriminate].
  - eexists. reflexivity.
Qed.

Lemma finalize_ok cl r lim :
  round_to_ten cl = Ok lim ->
  finalize "Decline" cl r
  = Ok (if py_gt cl (NInt 0) then "Accept" else "Decline", lim, r).
Proof.
  intros H. unfold finalize. cbn [String.eqb Ascii.eqb Bool.eqb andb].
  rewrite H. destruct (py_gt cl (NInt 0)); reflexivity.
Qed.

(** What an accepted call computes: the gates, then the limit algorithm
    and the final block. *)
Lemma accepted_run a s m b q l len :
  accepted a s m b q l len = true ->
  exists ntx sum med ln bs qs ls,
    as_num a = Some ntx /\ as_num s = Some sum /\ as_num m = Some med
    /\ as_num len = Some ln /\ b = VStr bs /\ q = VStr qs /\ l = VStr ls
    /\ str_in (lower qs) quality_levels = true
    /\ set_credit_limit a s m b q l len
       = (if String.eqb (lower ls) "neg" then decline reason_neg_listing
          else if py_le ntx (NInt 1) then decline reason_few_txns
          else if py_lt sum (NInt 1000) then decline reason_low_sum
          else if String.eqb (lower qs) "defaulter" then decline reason_defaulter
          else
            sz <- size_limit
                    (if str_in (upper bs) ["INDIVIDUAL"; "SOLE_PROPRIETOR"; "UNREGISTERED"]
                     then "IND" else "BUS") (lower qs) ln sum med ;;
            match sz with
            | Return reason => decline reason
            | Sized credit_limit reason => finalize "Decline" credit_limit reason
            end).
Proof.
  unfold accepted, is_numeric, enum_field. rewrite !andb_true_iff.
  intros ((((((Ha & Hs) & Hm) & Hl) & Hq) & Hli) & Hb).
  destruct (as_num a) as [ntx|] eqn:Ea; [|discriminate].
  destruct (as_num s) as [sum|] eqn:Es; [|discriminate].
  destruct (as_num m) as [med|] eqn:Em; [|discriminate].
  destruct (as_num len) as [ln|] eqn:El; [|discriminate].
  destruct q as [| | | |qs|]; try discriminate.
  destruct l as [| | | |ls|]; try discriminate.
  destruct b as [| | | |bs|]; try discriminate.
  exists ntx, sum, med, ln, bs, qs, ls. repeat (split; [reflexivity|]).
  split; [exact Hq|].
  unfold set_credit_limit, require_numeric. rewrite Ea, Es, Em, El.
  cbn [bind require_str attr_lower value_in value_eq_str].
  rewrite Hq, Hli, Hb. reflexivity.
Qed.

(** What a call that is not accepted does: the first failing check
    raises. *)
Lemma rejected_run a s m b q l len :
  accepted a s m b q l len = false ->
  (exists msg, In msg validation_messages
               /\ set_credit_limit a s m b q l len = Raise (ValueError msg))
  \/ (is_numeric a && is_numeric s && is_numeric m && is_numeric len
        && enum_field lower quality_levels q = true
      /\ attr_lower l = Raise AttributeError
      /\ set_credit_limit a s m b q l len = Raise AttributeError).
Proof.
  unfold accepted, is_numeric, enum_field, set_credit_limit, require_numeric,
    validation_messages.
  destruct (as_num a); [|intros _; left; eexists; split; [|reflexivity]; cbn; tauto].
  destruct (as_num s); [|intros _; left; eexists; split; [|reflexivity]; cbn; tauto].
  destruct (as_num m); [|intros _; left; eexists; split; [|reflexivity]; cbn; tauto].
  destruct (as_num len); [|intros _; left; eexists; split; [|reflexivity]; cbn; tauto].
  cbn [bind andb].
  destruct q as [| | | |qs|]; cbn [require_str bind];
    try (intros _; left; eexists; split; [|reflexivity]; cbn; tauto).
  destruct (str_in (lower qs) quality_levels); cbn [negb andb];
    [|intros _; left; eexists; split; [|reflexivity]; cbn; tauto].
  destruct l as [| | | |ls|ls]; cbn [attr_lower bind value_in];
    try (intros _; right; repeat split; reflexivity);
    [|intros _; left; eexists; split; [|reflexivity]; cbn; tauto].
  destruct (str_in (lower ls) listing_levels); cbn [negb andb];
    [|intros _; left; eexists; split; [|reflexivity]; cbn; tauto].
  destruct b as [| | | |bs|]; cbn [require_str bind];
    try (intros _; left; eexists; split; [|reflexivity]; cbn; tauto).
  destruct (str_in (upper bs) business_types); cbn [negb];
    [discriminate|intros _; left; eexists; split; [|reflexivity]; cbn; tauto].
Qed.

Lemma in_decline_reasons r :
  existsb (String.eqb r) decline_reasons = true -> In r decline_reasons.
Proof.
  rewrite existsb_exists. intros (w & Hin & Heq). apply String.eqb_eq in Heq. now subst.
Qed.

(** The three ways an accepted call ends: an early Decline with the
    [int] 0, a leaf of the table handed to the final block, or
    [OverflowError] from an [int] median too large for a float. *)
Lemma accepted_cases a s m b q l len :
  accepted a s m b q l len = true ->
  (exists r, In r decline_reasons
             /\ set_credit_limit a s m b q l len = Ok ("Decline", NInt 0, r))
  \/ (exists bs med fm f c lim,
        b = VStr bs /\ as_num m = Some med /\ to_float med = Ok fm
        /\ In (f, c) (leaves_of (if str_in (upper bs)
                                      ["INDIVIDUAL"; "SOLE_PROPRIETOR"; "UNREGISTERED"]
                                 then "IND" else "BUS"))
        /\ round_to_ten (py_min (NFloat (SFmul prec emax f fm)) (NInt c)) = Ok lim
        /\ set_credit_limit a s m b q l len
           = Ok (if py_gt (py_min (NFloat (SFmul prec emax f fm)) (NInt c)) (NInt 0)
                 then "Accept" else "Decline", lim, reason_default))
  \/ (set_credit_limit a s m b q l len = Raise OverflowError
      /\ exists z, m = VInt z /\ float_of_int z = Raise OverflowError).
Proof.
  intros Hacc.
  destruct (accepted_run _ _ _ _ _ _ _ Hacc)
    as (ntx & sum & med & ln & bs & qs & ls & Ea & Es & Em & El & -> & -> & -> & Hq & ->).
  unfold decline.
  destruct (String.eqb (lower ls) "neg");
    [left; eexists; split; [|reflexivity]; apply in_decline_reasons; reflexivity|].
  destruct (py_le ntx (NInt 1));
    [left; eexists; split; [|reflexivity]; apply in_decline_reasons; reflexivity|].
  destruct (py_lt sum (NInt 1000)) eqn:Hsum;
    [left; eexists; split; [|reflexivity]; apply in_decline_reasons; reflexivity|].
  destruct (String.eqb (lower qs) "defaulter") eqn:Hdef;
    [left; eexists; split; [|reflexivity]; apply in_decline_reasons; reflexivity|].
  pose proof (quality_past_gate _ Hq Hdef) as Hq5.
  set (cat := if str_in (upper bs) _ then "IND" else "BUS").
  destruct (to_float med) as [fm|e] eqn:Hfm.
  - destruct (size_limit_run cat (lower qs) ln sum med fm Hq5 Hsum Hfm)
      as [(r & Hsz & Hr)|(f & c & Hin & Hsz)]; rewrite Hsz; cbn [bind].
    + left. exists r. split; [|reflexivity].
      destruct Hr as [->| ->]; apply in_decline_reasons; reflexivity.
    + right. left.
      destruct (round_to_ten_sized_ok f c (SFmul prec emax f fm)
                  (leaves_of_leaves _ _ _ Hin)) as (lim & Hlim).
      exists bs, med, fm, f, c, lim. repeat (split; [first [reflexivity|assumption]|]).
      apply finalize_ok. exact Hlim.
  - destruct (size_limit_overflow cat (lower qs) ln sum med e Hq5 Hsum Hfm)
      as [(r & Hsz & Hr)|Hsz]; rewrite Hsz; cbn [bind].
    + left. exists r. split; [|reflexivity].
      destruct Hr as [->| ->]; apply in_decline_reasons; reflexivity.
    + right. right.
      apply to_float_raise in Hfm. destruct Hfm as (-> & z & -> & Hz).
      split; [reflexivity|]. exists z. split; [|exact Hz].
      destruct m as [| [] |z'|g| |]; cbn [as_num] in Em; inversion Em; subst;
        try reflexivity; vm_compute in Hz; discriminate.
Qed.

Lemma not_in_list r (ws : list string) :
  existsb (String.eqb r) ws = false -> ~ In r ws.
Proof.
  intros H Hin. apply Bool.not_true_iff_false in H. apply H.
  apply existsb_exists. exists r. split; [exact Hin|apply String.eqb_refl].
Qed.

(** The final rounding of a float never raises. *)
Lemma round_to_ten_float_ok g :
  round_to_ten (NFloat g)
  = Ok (NFloat (SFmul prec emax (round_half_even (SFdiv prec emax g (b64_of_Z 10)))
                  (b64_of_Z 10))).
Proof. reflexivity. Qed.

(* ------------------------------------------------------------------ *)
(** ** Further properties: exceptions                                   *)
(* ------------------------------------------------------------------ *)







(* ------------------------------------------------------------------ *)
(** ** Further properties: returned tuples                              *)
(* ------------------------------------------------------------------ *)

(** X4: accepted arguments whose median is a [float], a [bool], or an
    [int] that converts to a float always get a tuple back: past
    validation nothing else can raise, NaN and infinite amounts included. *)
Theorem X4_accepted_returns (a s m b q l len : value) :
  accepted a s m b q l len = true ->
  (forall z, m = VInt z -> float_of_int z <> Raise OverflowError) ->
  exists d lim r, set_credit_limit a s m b q l len = Ok (d, lim, r).
Proof.
  intros Hacc Hm.
  destruct (accepted_cases _ _ _ _ _ _ _ Hacc)
    as [(r & _ & E)|[(bs & med & fm & f & c & lim & _ & _ & _ & _ & _ & E)|(_ & z & -> & Hz)]].
  - eauto.
  - eauto.
  - elim (Hm z eq_refl Hz).
Qed.

Lemma X4_accepted_returns_witness :
  exists d lim r,
    set_credit_limit (VFloat (S754_infinity false)) (VFloat S754_nan) (VFloat S754_nan)
      (VStr "partnership") (VStr "hIgH") (VStr "POS") (VFloat (dec_lit 25 10))
    = Ok (d, lim, r).
Proof.
  apply X4_accepted_returns; [reflexivity|]. intros z H. discriminate.
Defined.

(** X5: with accepted arguments and an [int] median too large for a
    float (such as [2 ** 1024]) the call either declines early with the
    [int] 0 or raises [OverflowError]: no limit is ever sized. *)
Theorem X5_overflowing_median (a s b q l len : value) (z : Z) :
  accepted a s (VInt z) b q l len = true ->
  float_of_int z = Raise OverflowError ->
  (exists r, In r decline_reasons
             /\ set_credit_limit a s (VInt z) b q l len = Ok ("Decline", NInt 0, r))
  \/ set_credit_limit a s (VInt z) b q l len = Raise OverflowError.
Proof.
  intros Hacc Hz.
  destruct (accepted_cases _ _ _ _ _ _ _ Hacc)
    as [(r & Hr & E)|[(bs & med & fm & f & c & lim & _ & Em & Hfm & _)|(E & _)]]; eauto.
  cbn [as_num] in Em. inversion Em; subst. cbn [to_float] in Hfm.
  rewrite Hz in Hfm. discriminate.
Qed.

Lemma X5_overflowing_median_witness :
  set_credit_limit (VInt 5) (VInt 5000) (VInt (2 ^ 1024)) (VStr "INDIVIDUAL")
    (VStr "Moderate") (VStr "Pos") (VInt 10)
  = Raise OverflowError.
Proof.
  destruct (X5_overflowing_median (VInt 5) (VInt 5000) (VStr "INDIVIDUAL")
              (VStr "Moderate") (VStr "Pos") (VInt 10) (2 ^ 1024))
    as [(r & _ & E)|E]; [reflexivity|reflexivity| |exact E].
  vm_compute in E. discriminate.
Defined.

(** The final rounding returns a [float]. *)
Lemma round_to_ten_is_float cl lim :
  round_to_ten cl = Ok lim -> exists g, lim = NFloat g.
Proof.
  destruct cl as [z|g].
  - unfold round_to_ten, py_truediv. change (10 =? 0) with false. cbv iota.
    destruct (SFdiv prec emax (raw_of_Z z) (raw_of_Z 10)); cbn [bind]; try discriminate;
      intros H; inversion H; eauto.
  - rewrite round_to_ten_float_ok. intros H; inversion H; eauto.
Qed.

(** X6: the decision is always Accept or Decline; Accept comes only with
    the default reason; every tuple with another reason is an early
    decline with the [int] 0 and one of six reasons, and every tuple with
    the default reason carries a [float] limit. *)
Theorem X6_decision_and_reason (a s m b q l len : value) (d : string) (lim : num)
    (r : string) :
  set_credit_limit a s m b q l len = Ok (d, lim, r) ->
  (d = "Accept" \/ d = "Decline")
  /\ (d = "Accept" -> r = reason_default)
  /\ (r = reason_default -> exists g, lim = NFloat g)
  /\ (r <> reason_default -> d = "Decline" /\ lim = NInt 0 /\ In r decline_reasons).
Proof.
  intros H. destruct (accepted a s m b q l len) eqn:Hacc.
  - destruct (accepted_cases _ _ _ _ _ _ _ Hacc)
      as [(r0 & Hr & E)|[(bs & med & fm & f & c & lim0 & _ & _ & _ & Hin & Hlim & E)|(E & _)]];
      rewrite E in H; inversion H; subst; clear H.
    + repeat split; auto; try discriminate.
      intros ->. exfalso. revert Hr. apply not_in_list. reflexivity.
    + split; [destruct (py_gt _ _); auto|]. split; [reflexivity|].
      split; [intros _; eapply round_to_ten_is_float; eassumption|].
      intros Hne. now elim Hne.
  - destruct (rejected_run _ _ _ _ _ _ _ Hacc) as [(msg & _ & E)|(_ & _ & E)];
      rewrite E in H; discriminate.
Qed.

Lemma X6_decision_and_reason_witness :
  set_credit_limit (VInt 5) (VInt 5000) (VInt 10000) (VStr "INDIVIDUAL")
    (VStr "Lowest") (VStr "Pos") (VInt 2)
  = Ok ("Decline", NInt 0, reason_new_low_quality)
  /\ In reason_new_low_quality decline_reasons.
Proof.
  split; [reflexivity|].
  apply (X6_decision_and_reason (VInt 5) (VInt 5000) (VInt 10000) (VStr "INDIVIDUAL")
           (VStr "Lowest") (VStr "Pos") (VInt 2) "Decline" (NInt 0)
           reason_new_low_quality eq_refl).
  discriminate.
Defined.

(* ------------------------------------------------------------------ *)
(** ** Further properties: sign of the returned limit                   *)
(* ------------------------------------------------------------------ *)

Lemma div_eucl_nonneg a b :
  0 <= a -> 0 < b -> 0 <= fst (Z.div_eucl a b).
Proof.
  intros Ha Hb. pose proof (Z_div_mod a b ltac:(lia)) as H.
  destruct (Z.div_eucl a b) as [q r]. cbn [fst]. nia.
Qed.

(** A quotient by a positive finite float keeps a non-positive sign. *)
Lemma SFdiv_nonpos g my ey :
  nonpos_float g -> nonpos_float (SFdiv prec emax g (S754_finite false my ey)).
Proof.
  destruct g as [s|s| |s m e]; cbn [nonpos_float SFdiv xorb]; try tauto.
  - intros ->. reflexivity.
  - intros ->. cbn [xorb].
    unfold SFdiv_core_binary.
    set (m' := match _ - _ - _ with Z0 => Zpos m | Zpos _ => Z.shiftl (Zpos m) _
               | Zneg _ => 0 end).
    assert (Hm' : 0 <= m').
    { unfold m'. destruct (_ - _ - _) eqn:E; try lia. apply Z.shiftl_nonneg. lia. }
    pose proof (div_eucl_nonneg m' (Zpos my) Hm' ltac:(lia)) as Hq.
    destruct (Z.div_eucl m' (Zpos my)) as [q r]. cbn [fst] in Hq.
    pose proof (binary_round_aux_sign true q
                  (Z.min (fexp prec emax (Zdigits2 (Zpos m) + e - (Zdigits2 (Zpos my) + ey)))
                         (e - ey))
                  (new_location (Zpos my) r) Hq) as Hs.
    destruct (binary_round_aux _ _ _ _ _ _); cbn [nonpos_float]; tauto.
Qed.

Lemma round_half_even_nonpos g :
  nonpos_float g -> nonpos_float (round_half_even g).
Proof.
  destruct g as [s|s| |s m e]; cbn [nonpos_float round_half_even]; try tauto.
  intros ->. destruct (0 <=? e) eqn:He; [reflexivity|]. apply Z.leb_gt in He.
  cbv zeta.
  set (n := match _ ?= _ with Eq => _ | Lt => _ | Gt => _ end).
  assert (Hn : 0 <= n).
  { assert (0 <= Zpos m / 2 ^ (- e)) by (apply div_pow2_nonneg; lia).
    unfold n. destruct (_ ?= _); [destruct (Z.even _)| |]; lia. }
  destruct (n =? 0) eqn:Hz; [exact I|]. apply Z.eqb_neq in Hz.
  cbn [cond_Zopp]. destruct n as [|p|p]; try lia. cbn [Z.opp binary_normalize].
  unfold binary_round. destruct (shl_align p 0 _) as [mz ez].
  pose proof (binary_round_aux_sign true (Zpos mz) ez loc_Exact ltac:(lia)) as Hs.
  destruct (binary_round_aux _ _ _ _ _ _); cbn [nonpos_float]; tauto.
Qed.

Lemma SFmul_nonpos g my ey :
  nonpos_float g -> nonpos_float (SFmul prec emax g (S754_finite false my ey)).
Proof.
  destruct g as [s|s| |s m e]; cbn [nonpos_float SFmul xorb]; try tauto.
  - intros ->. reflexivity.
  - intros ->. cbn [xorb].
    pose proof (binary_round_aux_sign true (Zpos (m * my)) (e + ey) loc_Exact ltac:(lia))
      as Hs.
    destruct (binary_round_aux _ _ _ _ _ _); cbn [nonpos_float]; tauto.
Qed.

(** A float is not greater than 0 exactly when its sign is not positive. *)
Lemma not_gt_zero_nonpos g :
  py_gt (NFloat g) (NInt 0) = false <-> nonpos_float g.
Proof.
  unfold py_gt, num_compare.
  destruct g as [s|s| |s m e]; cbn [nonpos_float float_cmp_int].
  - split; [tauto|reflexivity].
  - destruct s; split; try reflexivity; discriminate.
  - split; [tauto|reflexivity].
  - destruct s; cbn [cond_Zopp Z.opp].
    + split; [reflexivity|intros _].
      destruct (0 <=? e) eqn:He.
      * apply Z.leb_le in He.
        assert (0 < 2 ^ e) by (apply Z.pow_pos_nonneg; lia).
        destruct (Z.compare_spec (Zneg m * 2 ^ e) 0); try reflexivity. nia.
      * reflexivity.
    + split; [|discriminate]. intros H. exfalso.
      destruct (0 <=? e) eqn:He.
      * apply Z.leb_le in He.
        assert (0 < 2 ^ e) by (apply Z.pow_pos_nonneg; lia).
        destruct (Z.compare_spec (Zpos m * 2 ^ e) 0); try discriminate; nia.
      * discriminate.
Qed.

Lemma nonpos_not_gt g : nonpos_float g -> py_gt (NFloat g) (NInt 0) = false.
Proof. apply not_gt_zero_nonpos. Qed.

Lemma times_ten_nonpos g :
  nonpos_float g -> nonpos_float (SFmul prec emax g (b64_of_Z 10)).
Proof. apply SFmul_nonpos. Qed.

(** The final rounding never turns a limit that is not positive into a
    positive one. *)
Lemma round_to_ten_not_gt cl lim :
  py_gt cl (NInt 0) = false -> round_to_ten cl = Ok lim ->
  py_gt lim (NInt 0) = false.
Proof.
  destruct cl as [z|g].
  - unfold py_gt at 1. cbn [num_compare]. intros Hz.
    assert (Hz0 : z <= 0) by (destruct (Z.compare_spec z 0); try lia; discriminate).
    unfold round_to_ten, py_truediv. change (10 =? 0) with false. cbv iota.
    change (raw_of_Z 10) with (S754_finite false 10 0).
    assert (Hg : nonpos_float (SFdiv prec emax (raw_of_Z z) (S754_finite false 10 0))).
    { apply SFdiv_nonpos. destruct z; cbn [raw_of_Z nonpos_float]; auto; lia. }
    destruct (SFdiv prec emax (raw_of_Z z) (S754_finite false 10 0)) as [s|s| |s m e];
      cbn [bind]; try discriminate;
      unfold py_round0, py_mul, to_float;
      change (float_of_int 10) with (Ok (b64_of_Z 10)); cbn [bind];
      intros [= <-];
      exact (nonpos_not_gt _ (times_ten_nonpos _ (round_half_even_nonpos _ Hg))).
  - intros Hg. apply not_gt_zero_nonpos in Hg.
    rewrite round_to_ten_float_ok. intros [= <-].
    exact (nonpos_not_gt _ (times_ten_nonpos _ (round_half_even_nonpos _
             (SFdiv_nonpos g 5629499534213120 (-49) Hg)))).
Qed.

(** X7: a returned limit greater than 0 always comes with Accept, on any
    input: the final rounding never makes a declined limit positive. *)
Theorem X7_positive_limit_accept (a s m b q l len : value) (d : string) (lim : num)
    (r : string) :
  set_credit_limit a s m b q l len = Ok (d, lim, r) ->
  py_gt lim (NInt 0) = true -> d = "Accept".
Proof.
  intros H Hpos. destruct (accepted a s m b q l len) eqn:Hacc.
  - destruct (accepted_cases _ _ _ _ _ _ _ Hacc)
      as [(r0 & Hr & E)|[(bs & med & fm & f & c & lim0 & _ & _ & _ & Hin & Hlim & E)|(E & _)]];
      rewrite E in H; inversion H; subst; clear H.
    + discriminate.
    + destruct (py_gt (py_min _ _) (NInt 0)) eqn:Hgt; [reflexivity|].
      rewrite (round_to_ten_not_gt _ _ Hgt Hlim) in Hpos. discriminate.
  - destruct (rejected_run _ _ _ _ _ _ _ Hacc) as [(msg & _ & E)|(_ & _ & E)];
      rewrite E in H; discriminate.
Qed.

Lemma X7_positive_limit_accept_witness :
  set_credit_limit (VInt 5) (VInt 5000) (VInt 10000) (VStr "INDIVIDUAL")
    (VStr "Moderate") (VStr "Pos") (VInt 10)
  = Ok ("Accept", NFloat (b64_of_Z 4000), reason_default)
  /\ py_gt (NFloat (b64_of_Z 4000)) (NInt 0) = true
  /\ "Accept" = "Accept".
Proof.
  split; [reflexivity|]. split; [reflexivity|].
  apply (X7_positive_limit_accept (VInt 5) (VInt 5000) (VInt 10000) (VStr "INDIVIDUAL")
           (VStr "Moderate") (VStr "Pos") (VInt 10) "Accept" (NFloat (b64_of_Z 4000))
           reason_default); reflexivity.
Defined.

Lemma valid_profile_accepted p :
  valid_profile p = true ->
  accepted p.(avg_ntxns_per_month) p.(avg_sum_credits_per_month)
    p.(median_avg_credits_per_month) p.(business_type) p.(crb_credit_quality)
    p.(crb_listing) p.(length_on_platform_months) = true.
Proof.
  assert (Hnum : forall v, nonneg_real v = true -> is_numeric v = true).
  { intros v. unfold nonneg_real, is_numeric. destruct (as_num v); [reflexivity|discriminate]. }
  unfold valid_profile, accepted. rewrite !andb_true_iff.
  intros ((((((Ha & Hs) & Hm) & Hl) & Hq) & Hli) & Hb).
  repeat split; auto.
Qed.

(** X8: on a valid profile a Decline always comes with a limit equal to
    0, the [int] 0 of an early decline or a float zero. *)
Theorem X8_decline_limit_zero (p : CustomerProfile) (lim : num) (r : string) :
  valid_profile p = true ->
  evaluate p = Ok ("Decline", lim, r) ->
  py_eq lim (NInt 0) = true.
Proof.
  intros Hv H. pose proof (valid_profile_accepted p Hv) as Hacc.
  unfold valid_profile in Hv. rewrite !andb_true_iff in Hv.
  destruct Hv as ((((((_ & _) & Hm) & _) & _) & _) & _).
  unfold evaluate in H.
  destruct (accepted_cases _ _ _ _ _ _ _ Hacc)
    as [(r0 & Hr & E)|[(bs & med & fm & f & c & lim0 & _ & Em & Hfm & Hin & Hlim & E)|(E & _)]];
    rewrite E in H; [| |discriminate].
  - injection H as <- <-. reflexivity.
  - injection H as Hd <- <-.
    destruct (py_gt (py_min _ _) (NInt 0)) eqn:Hgt; [discriminate|].
    apply leaves_of_leaves, leaves_ok in Hin. unfold leaf_ok in Hin.
    repeat (apply andb_true_iff in Hin; destruct Hin as [Hin ?]).
    destruct f as [| | |[] mf ef]; try discriminate.
    set (x := SFmul prec emax (S754_finite false mf ef) fm) in *.
    assert (Hx : py_mul (NFloat (S754_finite false mf ef)) med = Ok (NFloat x))
      by (rewrite py_mul_float, Hfm; reflexivity).
    destruct (mul_nonneg mf ef _ med _ Hm Em Hx) as (g & Hg & Hnn).
    injection Hg as <-. clearbody x.
    assert (Hc : 0 < c) by (now apply Z.ltb_lt).
    destruct (min_cases x c Hnn Hc) as [Hmin|[Hmin Hkeep]]; rewrite Hmin in *.
    + exfalso. revert Hgt. unfold py_gt. cbn [num_compare].
      destruct (Z.compare_spec c 0); try lia; discriminate.
    + apply not_gt_zero_nonpos in Hgt.
      destruct x as [s|s| |s m e]; cbn [nonpos_float] in *; try contradiction.
      * rewrite round_to_ten_float_ok in Hlim. injection Hlim as <-.
        destruct s; reflexivity.
      * destruct Hkeep as [-> _]. discriminate.
Qed.

Lemma X8_decline_limit_zero_witness :
  let p := profile (VInt 5) (VInt 5000) (VFloat (S754_zero true)) "INDIVIDUAL" "Low" "Pos"
             (VInt 4) in
  valid_profile p = true
  /\ evaluate p = Ok ("Decline", NFloat (S754_zero true), reason_default)
  /\ py_eq (NFloat (S754_zero true)) (NInt 0) = true.
Proof.
  cbv zeta. split; [reflexivity|]. split; [vm_compute; reflexivity|].
  apply (X8_decline_limit_zero
           (profile (VInt 5) (VInt 5000) (VFloat (S754_zero true)) "INDIVIDUAL" "Low"
              "Pos" (VInt 4))
           (NFloat (S754_zero true)) reason_default);
    vm_compute; reflexivity.
Defined.

(* ------------------------------------------------------------------ *)
(** ** Further properties: the caps                                     *)
(* ------------------------------------------------------------------ *)

Lemma loc_of_shr_record_of_loc m l : loc_of_shr_record (shr_record_of_loc m l) = l.
Proof. destruct l as [|[]]; reflexivity. Qed.

(** Rounding never crosses an integer bound: a mantissa of at most
    [V * 2 ^ (- e)], exact when it reaches the bound, rounds to a mantissa
    of at most [V * 2 ^ (- e')]. *)
Lemma binary_round_aux_le s m e l V :
  0 <= V <= 65536 -> e <= 0 ->
  0 <= m <= V * 2 ^ (- e) -> (m = V * 2 ^ (- e) -> l = loc_Exact) ->
  match binary_round_aux prec emax s m e l with
  | S754_zero s' => s' = s
  | S754_finite s' m' e' => s' = s /\ e' <= 0 /\ Zpos m' <= V * 2 ^ (- e')
  | _ => False
  end.
Proof.
  intros HV He Hm Hl.
  assert (Hdig : forall x ex, ex <= 0 -> 0 <= x <= V * 2 ^ (- ex) ->
                 fexp prec emax (Zdigits2 x + ex) <= 0).
  { intros x ex Hex Hx.
    assert (0 < 2 ^ (- ex)) by (apply Z.pow_pos_nonneg; lia).
    assert (Zdigits2 x <= 17 - ex).
    { apply Zdigits2_le; [lia|]. split; [lia|].
      replace (17 - ex) with (17 + - ex) by lia. rewrite Z.pow_add_r by lia.
      change (2 ^ 17) with 131072. nia. }
    unfold fexp, emin, prec, emax. lia. }
  (* the first shift and the rounding *)
  assert (H1 : exists m2 e1,
             e1 <= 0 /\ 0 <= m2 <= V * 2 ^ (- e1)
             /\ binary_round_aux prec emax s m e l
                = let '(mrs2, e2) := shr_fexp prec emax m2 e1 loc_Exact in
                  match shr_m mrs2 with
                  | Z0 => S754_zero s
                  | Zpos m' => if e2 <=? emax - prec then S754_finite s m' e2
                               else S754_infinity s
                  | Zneg _ => S754_nan
                  end).
  { unfold binary_round_aux.
    destruct (shr_fexp prec emax m e l) as [mrs1 e1] eqn:E1.
    exists (round_nearest_even (shr_m mrs1) (loc_of_shr_record mrs1)), e1.
    pose proof (shr_fexp_m m e l mrs1 e1 (proj1 Hm) E1) as (Hle & Hm1 & He1).
    assert (He10 : e1 <= 0) by (destruct He1 as [->| ->]; [lia|apply Hdig; lia]).
    assert (Hp : 0 < 2 ^ (e1 - e)) by (apply Z.pow_pos_nonneg; lia).
    assert (Hp1 : 0 < 2 ^ (- e1)) by (apply Z.pow_pos_nonneg; lia).
    assert (Hsplit : 2 ^ (- e) = 2 ^ (- e1) * 2 ^ (e1 - e)).
    { rewrite <- Z.pow_add_r by lia. f_equal. lia. }
    assert (Hb1 : 0 <= shr_m mrs1 <= V * 2 ^ (- e1)).
    { rewrite Hm1. split; [apply div_pow2_nonneg; lia|].
      apply Z.div_le_upper_bound; [lia|]. rewrite Hsplit in Hm. lia. }
    split; [exact He10|]. split; [|reflexivity].
    pose proof (round_nearest_even_bounds (shr_m mrs1) (loc_of_shr_record mrs1)) as Hr.
    split; [lia|].
    destruct (Z.eq_dec (shr_m mrs1) (V * 2 ^ (- e1))) as [Heq|Hne]; [|lia].
    (* the bound is reached: the input was exact and the shift loses nothing *)
    assert (Hmeq : m = V * 2 ^ (- e)).
    { rewrite Hm1 in Heq.
      pose proof (Z.mul_div_le m (2 ^ (e1 - e)) Hp) as Hd.
      rewrite Heq in Hd. rewrite Hsplit. lia. }
    specialize (Hl Hmeq). subst l.
    assert (Hex : loc_of_shr_record mrs1 = loc_Exact).
    { revert E1. unfold shr_fexp, shr. cbn [shr_record_of_loc].
      destruct (fexp prec emax (Zdigits2 m + e) - e) as [|p|p] eqn:Ep;
        intros [= <- <-]; try reflexivity.
      rewrite Hmeq, Hsplit.
      replace (e + Zpos p - e) with (Zpos p) by lia.
      rewrite Z.mul_assoc, iter_shr_1_exact by nia. reflexivity. }
    rewrite Hex. cbn [round_nearest_even]. lia. }
  destruct H1 as (m2 & e1 & He1 & Hm2 & ->).
  destruct (shr_fexp prec emax m2 e1 loc_Exact) as [mrs2 e2] eqn:E2.
  pose proof (shr_fexp_m m2 e1 loc_Exact mrs2 e2 (proj1 Hm2) E2) as (Hle & Hm3 & He2).
  assert (He20 : e2 <= 0) by (destruct He2 as [->| ->]; [lia|apply Hdig; lia]).
  assert (Hp : 0 < 2 ^ (e2 - e1)) by (apply Z.pow_pos_nonneg; lia).
  assert (Hsplit : 2 ^ (- e1) = 2 ^ (- e2) * 2 ^ (e2 - e1)).
  { rewrite <- Z.pow_add_r by lia. f_equal. lia. }
  assert (Hb : 0 <= shr_m mrs2 <= V * 2 ^ (- e2)).
  { rewrite Hm3. split; [apply div_pow2_nonneg; lia|].
    apply Z.div_le_upper_bound; [lia|]. rewrite Hsplit in Hm2. lia. }
  destruct (shr_m mrs2) as [|p|p]; [reflexivity| |lia].
  replace (e2 <=? emax - prec) with true
    by (symmetry; apply Z.leb_le; unfold emax, prec; lia).
  repeat split; try reflexivity; lia.
Qed.

(** Dividing a positive float of at most [10 * V] by [10.0] gives a float
    of at most [V]. *)
Lemma div_ten_le m e V :
  0 < V <= 35000 ->
  float_cmp_int (S754_finite false m e) (10 * V) <> Some Gt ->
  match SFdiv prec emax (S754_finite false m e) (b64_of_Z 10) with
  | S754_zero s' => s' = false
  | S754_finite s' m' e' => s' = false /\ e' <= 0 /\ Zpos m' <= V * 2 ^ (- e')
  | _ => False
  end.
Proof.
  intros HV Hcmp. apply float_le_cap in Hcmp.
  change (b64_of_Z 10) with (S754_finite false 5629499534213120 (-49)).
  cbn [SFdiv xorb]. unfold SFdiv_core_binary.
  change (Zdigits2 (Zpos 5629499534213120)) with 53.
  cbn [Zdigits2].
  pose proof (digits2_pos_bounds m) as [Hdlo _].
  set (D := Zpos (digits2_pos m)) in *.
  assert (HD : D + e <= 19).
  { destruct (Z_le_gt_dec (D + e) 19) as [|Hgt]; [assumption|exfalso].
    destruct (0 <=? e) eqn:He.
    - apply Z.leb_le in He.
      assert (2 ^ 19 <= 2 ^ (D - 1 + e)) by (apply Z.pow_le_mono_r; lia).
      rewrite Z.pow_add_r in H by (unfold D; lia).
      assert (0 < 2 ^ e) by (apply Z.pow_pos_nonneg; lia).
      assert (2 ^ (D - 1) * 2 ^ e <= Zpos m * 2 ^ e) by nia.
      change (2 ^ 19) with 524288 in H. lia.
    - apply Z.leb_gt in He.
      assert (2 ^ (19 + - e) <= 2 ^ (D - 1)) by (apply Z.pow_le_mono_r; lia).
      rewrite Z.pow_add_r in H by lia.
      assert (0 < 2 ^ (- e)) by (apply Z.pow_pos_nonneg; lia).
      change (2 ^ 19) with 524288 in H. nia. }
  set (e' := Z.min (fexp prec emax (D + e - (53 + -49))) (e - -49)).
  assert (He' : e' <= -38 /\ e' <= e + 49).
  { unfold e', fexp, emin, prec, emax. lia. }
  set (t := - e').
  assert (Ht : 38 <= t) by (unfold t; lia).
  set (s := e - -49 - e').
  assert (Hs : s = e + 49 + t) by (unfold s, t; lia).
  set (m' := match s with Z0 => Zpos m | Zpos _ => Z.shiftl (Zpos m) s | Zneg _ => 0 end).
  assert (Hm' : m' = Zpos m * 2 ^ s).
  { unfold m'. destruct s as [|p|p] eqn:Es.
    - rewrite Z.pow_0_r. lia.
    - apply Z.shiftl_mul_pow2. lia.
    - lia. }
  assert (HP : 0 < 2 ^ t) by (apply Z.pow_pos_nonneg; lia).
  assert (Hub : m' <= 10 * V * (562949953421312 * 2 ^ t)).
  { rewrite Hm'. destruct (0 <=? e) eqn:He.
    - apply Z.leb_le in He.
      replace s with (e + (49 + t)) by lia.
      rewrite Z.pow_add_r, (Z.pow_add_r 2 49 t) by lia.
      change (2 ^ 49) with 562949953421312.
      assert (0 < 2 ^ e) by (apply Z.pow_pos_nonneg; lia). nia.
    - apply Z.leb_gt in He.
      assert (Hsplit : 2 ^ (- e) * 2 ^ s = 562949953421312 * 2 ^ t).
      { rewrite <- Z.pow_add_r by lia. replace (- e + s) with (49 + t) by lia.
        rewrite Z.pow_add_r by lia. reflexivity. }
      assert (0 < 2 ^ s) by (apply Z.pow_pos_nonneg; lia).
      assert (0 < 2 ^ (- e)) by (apply Z.pow_pos_nonneg; lia).
      rewrite <- Hsplit. nia. }
  pose proof (Z_div_mod m' 5629499534213120 eq_refl) as Hdiv.
  destruct (Z.div_eucl m' 5629499534213120) as [q r].
  destruct Hdiv as [Hq Hr].
  assert (Hm0 : 0 <= m') by (rewrite Hm'; apply Z.mul_nonneg_nonneg; lia).
  fold t.
  apply binary_round_aux_le; [lia|lia| |].
  - fold t. nia.
  - fold t. intros Heq.
    assert (r = 0) by nia. subst r. reflexivity.
Qed.

(** Rounding a float of at most [V] to an integer gives a zero or a float
    that denotes an integer of at most [V]. *)
Lemma round_half_even_le m e V :
  0 <= V <= 65536 -> e <= 0 -> Zpos m <= V * 2 ^ (- e) ->
  round_half_even (S754_finite false m e) = S754_zero false
  \/ exists m' e' n,
       round_half_even (S754_finite false m e) = S754_finite false m' e'
       /\ denotes (Zpos m') e' n /\ 0 < n <= V.
Proof.
  intros HV He Hm. cbn [round_half_even].
  destruct (0 <=? e) eqn:H0.
  - apply Z.leb_le in H0. assert (e = 0) by lia. subst e.
    right. exists m, 0, (Zpos m). split; [reflexivity|].
    split; [left; split; [lia|]; rewrite Z.pow_0_r; lia|].
    cbn in Hm. lia.
  - apply Z.leb_gt in H0. cbv zeta.
    assert (Hp : 0 < 2 ^ (- e)) by (apply Z.pow_pos_nonneg; lia).
    pose proof (Z_div_mod_eq_full (Zpos m) (2 ^ (- e))) as Hdm.
    pose proof (Z.mod_pos_bound (Zpos m) (2 ^ (- e)) Hp) as Hmod.
    set (q := Zpos m / 2 ^ (- e)) in *.
    set (r := Zpos m mod 2 ^ (- e)) in *.
    assert (Hq : 0 <= q <= V) by nia.
    set (n := match 2 * r ?= 2 ^ (- e) with
              | Eq => if Z.even q then q else q + 1
              | Lt => q
              | Gt => q + 1
              end).
    assert (Hn : 0 <= n <= V).
    { unfold n. destruct (Z.eq_dec q V) as [HqV|HqV].
      - assert (r = 0) by nia. subst r.
        replace (2 * (Zpos m mod 2 ^ (- e))) with 0 by lia.
        destruct (Z.compare_spec 0 (2 ^ (- e))); lia.
      - destruct (_ ?= _); [destruct (Z.even q)| |]; lia. }
    destruct (n =? 0) eqn:Hz; [left; reflexivity|right].
    apply Z.eqb_neq in Hz. cbn [cond_Zopp].
    destruct (b64_of_Z_exact n) as (m' & e' & Heq & Hden).
    { change (2 ^ 53) with 9007199254740992. lia. }
    exists m', e', n. split; [exact Heq|]. split; [exact Hden|lia].
Qed.

(** The exact comparison of an integral float is that of its integer. *)
Lemma denotes_cmp m e W a :
  denotes (Zpos m) e W ->
  float_cmp_int (S754_finite false m e) a = Some (W ?= a).
Proof.
  intros [[He ->]|[He Hm]]; cbn [float_cmp_int cond_Zopp].
  - apply Z.leb_le in He. now rewrite He.
  - assert (0 < 2 ^ (- e)) by (apply Z.pow_pos_nonneg; lia).
    apply Z.leb_gt in He. rewrite He, Hm. f_equal.
    destruct (Z.compare_spec W a), (Z.compare_spec (W * 2 ^ (- e)) (a * 2 ^ (- e)));
      try reflexivity; nia.
Qed.

(** The exact comparison of an integral float is that of its integer. *)
Lemma float_to_Z_cmp f z a :
  float_to_Z f = Some z -> float_cmp_int f a = Some (z ?= a).
Proof.
  destruct f as [s|s| |s m e]; cbn [float_to_Z float_cmp_int]; try discriminate.
  - intros [= <-]. reflexivity.
  - destruct (0 <=? e) eqn:He.
    + intros H. assert (Hz : z = cond_Zopp s (Zpos m * 2 ^ e)) by congruence.
      subst z. clear H. f_equal. destruct s; cbn [cond_Zopp]; [|reflexivity].
      f_equal. ring.
    + apply Z.leb_gt in He.
      assert (Hp : 0 < 2 ^ (- e)) by (apply Z.pow_pos_nonneg; lia).
      destruct (Zpos m mod 2 ^ (- e) =? 0) eqn:Hmod; [|discriminate].
      apply Z.eqb_eq in Hmod. intros H.
      assert (Hz : z = cond_Zopp s (Zpos m / 2 ^ (- e))) by congruence.
      subst z. clear H. f_equal.
      pose proof (Z_div_mod_eq_full (Zpos m) (2 ^ (- e))) as Hdm.
      rewrite Hmod in Hdm.
      set (q := Zpos m / 2 ^ (- e)) in *.
      assert (Hv : cond_Zopp s (Zpos m) = cond_Zopp s q * 2 ^ (- e)).
      { destruct s; cbn [cond_Zopp]; lia. }
      rewrite Hv.
      destruct (Z.compare_spec (cond_Zopp s q) a),
               (Z.compare_spec (cond_Zopp s q * 2 ^ (- e)) (a * 2 ^ (- e)));
        try reflexivity; nia.
Qed.

(** [x > c] fails for every larger [c] once it fails for one. *)
Lemma py_gt_mono x c c' :
  c <= c' -> py_gt x (NInt c) = false -> py_gt x (NInt c') = false.
Proof.
  intros Hc. unfold py_gt, num_compare. destruct x as [z|f].
  - destruct (Z.compare_spec z c), (Z.compare_spec z c'); try reflexivity;
      try discriminate; lia.
  - destruct f as [s|s| |s m e]; cbn [float_cmp_int]; try tauto.
    + destruct (Z.compare_spec 0 c), (Z.compare_spec 0 c'); try reflexivity;
        try discriminate; lia.
    + destruct (0 <=? e) eqn:He.
      * destruct (Z.compare_spec (cond_Zopp s (Zpos m) * 2 ^ e) c),
                 (Z.compare_spec (cond_Zopp s (Zpos m) * 2 ^ e) c'); try reflexivity;
          try discriminate; lia.
      * apply Z.leb_gt in He.
        assert (0 < 2 ^ (- e)) by (apply Z.pow_pos_nonneg; lia).
        destruct (Z.compare_spec (cond_Zopp s (Zpos m)) (c * 2 ^ (- e))),
                 (Z.compare_spec (cond_Zopp s (Zpos m)) (c' * 2 ^ (- e))); try reflexivity;
          try discriminate; nia.
Qed.

(** A float that [min(x, cap)] keeps is rounded to a limit of at most
    the cap, whatever its sign, NaN included. *)
Lemma round_to_ten_le_cap g V :
  0 < V <= 35000 ->
  py_lt (NInt (10 * V)) (NFloat g) = false ->
  py_gt (NFloat (SFmul prec emax (round_half_even (SFdiv prec emax g (b64_of_Z 10)))
                   (b64_of_Z 10)))
        (NInt (10 * V)) = false.
Proof.
  intros HV Hlt.
  destruct (py_gt (NFloat g) (NInt 0)) eqn:Hpos.
  - (* a positive float: finite, and at most the cap *)
    destruct g as [s|s| |s m e]; try (vm_compute in Hpos; discriminate).
    + destruct s; [discriminate|]. revert Hlt. unfold py_lt; cbn.
      discriminate.
    + assert (s = false).
      { destruct s; [|reflexivity].
        assert (Hn : nonpos_float (S754_finite true m e)) by reflexivity.
        apply not_gt_zero_nonpos in Hn. rewrite Hn in Hpos. discriminate. }
      subst s.
      assert (Hcmp : float_cmp_int (S754_finite false m e) (10 * V) <> Some Gt).
      { intros Hc. revert Hlt. unfold py_lt, num_compare. rewrite Hc. discriminate. }
      pose proof (div_ten_le m e V HV Hcmp) as Hdiv.
      destruct (SFdiv prec emax (S754_finite false m e) (b64_of_Z 10))
        as [s'|s'| |s' m1 e1]; try contradiction.
      * subst s'. apply py_gt_mono with (c := 0); [lia|reflexivity].
      * destruct Hdiv as (-> & He1 & Hm1).
        destruct (round_half_even_le m1 e1 V ltac:(lia) He1 Hm1)
          as [->|(m' & e' & n & -> & Hden & Hn)].
        -- apply py_gt_mono with (c := 0); [lia|reflexivity].
        -- pose proof (times_ten_exact m' e' n ltac:(lia)
                         ltac:(change (2 ^ 53) with 9007199254740992; lia) Hden) as Hz.
           unfold py_gt, num_compare.
           rewrite (float_to_Z_cmp _ _ (10 * V) Hz).
           destruct (Z.compare_spec (10 * n) (10 * V)); try reflexivity. lia.
  - (* not positive: the rounded limit is not positive either *)
    apply py_gt_mono with (c := 0); [lia|].
    apply (round_to_ten_not_gt (NFloat g)); [exact Hpos|].
    apply round_to_ten_float_ok.
Qed.

Lemma caps_ok cat f c :
  In (f, c) (leaves_of cat) ->
  cap_ok (if String.eqb (lower cat) "ind" then 30000 else 350000) (f, c) = true.
Proof.
  unfold leaves_of. destruct (String.eqb (lower cat) "ind").
  - assert (H : forallb (cap_ok 30000) ind_leaves = true) by (vm_compute; reflexivity).
    rewrite forallb_forall in H. apply H.
  - assert (H : forallb (cap_ok 350000) bus_leaves = true) by (vm_compute; reflexivity).
    rewrite forallb_forall in H. apply H.
Qed.

(** The limit returned for a leaf is at most the cap of the leaf, and the
    cap at most the largest cap of its category. *)
Lemma leaf_limit_le_cap cat f c g lim :
  In (f, c) (leaves_of cat) ->
  round_to_ten (py_min (NFloat g) (NInt c)) = Ok lim ->
  py_gt lim (NInt c) = false
  /\ c <= (if String.eqb (lower cat) "ind" then 30000 else 350000).
Proof.
  intros Hin Hlim.
  pose proof (caps_ok _ _ _ Hin) as Hcap. unfold cap_ok in Hcap.
  rewrite !andb_true_iff in Hcap. destruct Hcap as (((Hc0 & Hcb) & Hc10) & Hround).
  apply Z.ltb_lt in Hc0. apply Z.leb_le in Hcb. apply Z.eqb_eq in Hc10.
  split; [|exact Hcb].
  revert Hlim. unfold py_min.
  destruct (py_lt (NInt c) (NFloat g)) eqn:Hlt.
  - intros Hl. rewrite Hl in Hround. now apply negb_true_iff in Hround.
  - rewrite round_to_ten_float_ok. intros [= <-].
    assert (HcV : c = 10 * (c / 10)).
    { pose proof (Z_div_mod_eq_full c 10). lia. }
    rewrite HcV in Hlt |- *.
    apply round_to_ten_le_cap; [|exact Hlt].
    destruct (String.eqb (lower _) "ind") in Hcb; lia.
Qed.

(** X9: no returned limit exceeds 350000, and none exceeds 30000 for the
    business types INDIVIDUAL, SOLE_PROPRIETOR and UNREGISTERED; this holds
    on any input, a NaN, infinite or negative median included. *)
Theorem X9_limit_at_most_cap (a s m b q l len : value) (d : string) (lim : num)
    (r : string) :
  set_credit_limit a s m b q l len = Ok (d, lim, r) ->
  py_gt lim (NInt 350000) = false
  /\ (forall bs, b = VStr bs ->
      str_in (upper bs) ["INDIVIDUAL"; "SOLE_PROPRIETOR"; "UNREGISTERED"] = true ->
      py_gt lim (NInt 30000) = false).
Proof.
  intros H. destruct (accepted a s m b q l len) eqn:Hacc.
  - destruct (accepted_cases _ _ _ _ _ _ _ Hacc)
      as [(r0 & Hr & E)|[(bs & med & fm & f & c & lim0 & -> & _ & _ & Hin & Hlim & E)|(E & _)]];
      rewrite E in H; [| |discriminate].
    + injection H as <- <- <-. split; [reflexivity|]. intros; reflexivity.
    + injection H as <- <- <-.
      destruct (leaf_limit_le_cap _ _ _ _ _ Hin Hlim) as (Hle & Hcb).
      split.
      * apply py_gt_mono with (c := c); [|exact Hle].
        destruct (String.eqb (lower _) "ind") in Hcb; lia.
      * intros bs' [= <-] Hind. rewrite Hind in Hcb.
        apply py_gt_mono with (c := c); [|exact Hle].
        change (String.eqb (lower "IND") "ind") with true in Hcb. exact Hcb.
  - destruct (rejected_run _ _ _ _ _ _ _ Hacc) as [(msg & _ & E)|(_ & _ & E)];
      rewrite E in H; discriminate.
Qed.

Lemma X9_limit_at_most_cap_witness :
  set_credit_limit (VInt 5) (VInt 200000) (VFloat (S754_infinity false))
    (VStr "Sole_Proprietor") (VStr "Highest") (VStr "Pos") (VInt 24)
  = Ok ("Accept", NFloat (b64_of_Z 30000), reason_default)
  /\ py_gt (NFloat (b64_of_Z 30000)) (NInt 30000) = false.
Proof.
  split; [vm_compute; reflexivity|].
  refine (proj2 (X9_limit_at_most_cap (VInt 5) (VInt 200000)
                   (VFloat (S754_infinity false)) (VStr "Sole_Proprietor") (VStr "Highest")
                   (VStr "Pos") (VInt 24) "Accept" (NFloat (b64_of_Z 30000))
                   reason_default _) "Sole_Proprietor" eq_refl _);
    vm_compute; reflexivity.
Defined.

(* ------------------------------------------------------------------ *)
(** ** Further properties: what the result depends on                   *)
(* ------------------------------------------------------------------ *)

(** The limit algorithm reads the credit sum only through its two tests. *)
Lemma size_limit_sum cat q ln sum sum' med :
  py_lt sum (NInt 1000) = py_lt sum' (NInt 1000) ->
  py_le (NInt 1000) sum && py_le sum (NInt 100000)
  = py_le (NInt 1000) sum' && py_le sum' (NInt 100000) ->
  size_limit cat q ln sum med = size_limit cat q ln sum' med.
Proof. intros H1 H2. unfold size_limit. rewrite H1, H2. reflexivity. Qed.

(** X10: the transaction count is read only through the test [<= 1] and
    the credit sum only through the tests [< 1000] and
    [1000 <= sum <= 100000]: two calls that agree on these tests and on the
    other arguments return the same result.  In particular a NaN count
    passes gate 2 and a NaN sum passes gate 3 and selects the top tier. *)
Theorem X10_amounts_through_tests (a a' s s' m b q l len : value) (ntx ntx' sum sum' : num) :
  as_num a = Some ntx -> as_num a' = Some ntx' ->
  as_num s = Some sum -> as_num s' = Some sum' ->
  py_le ntx (NInt 1) = py_le ntx' (NInt 1) ->
  py_lt sum (NInt 1000) = py_lt sum' (NInt 1000) ->
  py_le (NInt 1000) sum && py_le sum (NInt 100000)
  = py_le (NInt 1000) sum' && py_le sum' (NInt 100000) ->
  set_credit_limit a s m b q l len = set_credit_limit a' s' m b q l len.
Proof.
  intros Ea Ea' Es Es' Hn Hs1 Hs2.
  unfold set_credit_limit, require_numeric. rewrite Ea, Ea', Es, Es'. cbn [bind].
  destruct (as_num m) as [med|]; [|reflexivity].
  destruct (as_num len) as [ln|]; [|reflexivity]. cbn [bind].
  destruct (require_str q _) as [qs|]; [|reflexivity]. cbn [bind].
  destruct (negb (str_in (lower qs) quality_levels)); [reflexivity|].
  destruct (attr_lower l) as [l'|]; [|reflexivity]. cbn [bind].
  destruct (negb (value_in l' listing_levels)); [reflexivity|].
  destruct (require_str b _) as [bs|]; [|reflexivity]. cbn [bind].
  destruct (negb (str_in (upper bs) business_types)); [reflexivity|].
  rewrite Hn, Hs1, (size_limit_sum _ _ _ sum sum' _ Hs1 Hs2). reflexivity.
Qed.

Lemma X10_amounts_through_tests_witness :
  set_credit_limit (VFloat S754_nan) (VFloat S754_nan) (VInt 1000000)
    (VStr "PARTNERSHIP") (VStr "High") (VStr "Pos") (VInt 12)
  = set_credit_limit (VInt 2) (VInt 100001) (VInt 1000000)
      (VStr "PARTNERSHIP") (VStr "High") (VStr "Pos") (VInt 12).
Proof.
  apply (X10_amounts_through_tests (VFloat S754_nan) (VInt 2) (VFloat S754_nan)
           (VInt 100001) (VInt 1000000) (VStr "PARTNERSHIP") (VStr "High") (VStr "Pos")
           (VInt 12) (NFloat S754_nan) (NInt 2) (NFloat S754_nan) (NInt 100001));
    reflexivity.
Defined.

(** X11: the business types of one category are interchangeable: any two
    of INDIVIDUAL, SOLE_PROPRIETOR, UNREGISTERED, and likewise
    LIMITED_COMPANY and PARTNERSHIP, give the same result with the same
    other arguments. *)
Theorem X11_business_types_of_a_category (a s m q l len : value) (bs bs' : string)
    (types : list string) :
  types = ["INDIVIDUAL"; "SOLE_PROPRIETOR"; "UNREGISTERED"]
  \/ types = ["LIMITED_COMPANY"; "PARTNERSHIP"] ->
  str_in (upper bs) types = true -> str_in (upper bs') types = true ->
  set_credit_limit a s m (VStr bs) q l len = set_credit_limit a s m (VStr bs') q l len.
Proof.
  intros Ht Hb Hb'. run_validation.
  destruct (require_str q _) as [qs|]; [|reflexivity]. cbn [bind].
  destruct (negb (str_in (lower qs) quality_levels)); [reflexivity|].
  destruct (attr_lower l) as [l'|]; [|reflexivity]. cbn [bind].
  destruct (negb (value_in l' listing_levels)); [reflexivity|].
  destruct Ht; subst types; str_cases Hb; str_cases Hb'; reflexivity.
Qed.

Lemma X11_business_types_of_a_category_witness :
  set_credit_limit (VInt 5) (VInt 5000) (VInt 10000) (VStr "unregistered")
    (VStr "Moderate") (VStr "Pos") (VInt 10)
  = set_credit_limit (VInt 5) (VInt 5000) (VInt 10000) (VStr "INDIVIDUAL")
      (VStr "Moderate") (VStr "Pos") (VInt 10).
Proof.
  apply (X11_business_types_of_a_category (VInt 5) (VInt 5000) (VInt 10000)
           (VStr "Moderate") (VStr "Pos") (VInt 10) "unregistered" "INDIVIDUAL"
           ["INDIVIDUAL"; "SOLE_PROPRIETOR"; "UNREGISTERED"]);
    [left; reflexivity|reflexivity|reflexivity].
Defined.

(** The limit algorithm reads the quality only through its two band tests. *)
Lemma size_limit_band cat q q' ln sum med :
  str_in q ["lowest"; "low"] = str_in q' ["lowest"; "low"] ->
  str_in q ["moderate"; "high"; "highest"] = str_in q' ["moderate"; "high"; "highest"] ->
  size_limit cat q ln sum med = size_limit cat q' ln sum med.
Proof. intros H1 H2. unfold size_limit. rewrite H1, H2. reflexivity. Qed.

(** What the function tests on a quality of a band. *)
Lemma band_tests band q :
  band = ["lowest"; "low"] \/ band = ["moderate"; "high"; "highest"] ->
  str_in q band = true ->
  str_in q quality_levels = true
  /\ String.eqb q "defaulter" = false
  /\ str_in q ["lowest"; "low"] = str_in "low" band
  /\ str_in q ["moderate"; "high"; "highest"] = str_in "high" band.
Proof.
  intros [->| ->] Hq; apply str_in_cases in Hq; cbn [In] in Hq;
    repeat (destruct Hq as [<-|Hq]; [repeat split; reflexivity|]); contradiction.
Qed.

(** X12: the credit qualities of one band are interchangeable: Lowest
    and Low give the same result, and so do Moderate, High and Highest,
    with the same other arguments. *)
Theorem X12_qualities_of_a_band (a s m b l len : value) (qs qs' : string)
    (band : list string) :
  band = ["lowest"; "low"] \/ band = ["moderate"; "high"; "highest"] ->
  str_in (lower qs) band = true -> str_in (lower qs') band = true ->
  set_credit_limit a s m b (VStr qs) l len = set_credit_limit a s m b (VStr qs') l len.
Proof.
  intros Hband Hq Hq'.
  destruct (band_tests band _ Hband Hq) as (Hl & Hd & Hlo & Hmo).
  destruct (band_tests band _ Hband Hq') as (Hl' & Hd' & Hlo' & Hmo').
  run_validation. rewrite Hl, Hl', Hd, Hd'. cbn [negb].
  destruct (attr_lower l) as [l'|]; [|reflexivity]. cbn [bind].
  destruct (negb (value_in l' listing_levels)); [reflexivity|].
  destruct (require_str b _) as [bs|]; [|reflexivity]. cbn [bind].
  destruct (negb (str_in (upper bs) business_types)); [reflexivity|].
  rewrite (size_limit_band _ (lower qs) (lower qs') _ _ _
             (eq_trans Hlo (eq_sym Hlo')) (eq_trans Hmo (eq_sym Hmo'))).
  reflexivity.
Qed.

Lemma X12_qualities_of_a_band_witness :
  set_credit_limit (VInt 5) (VInt 5000) (VInt 10000) (VStr "INDIVIDUAL")
    (VStr "HIGHEST") (VStr "Pos") (VInt 10)
  = set_credit_limit (VInt 5) (VInt 5000) (VInt 10000) (VStr "INDIVIDUAL")
      (VStr "moderate") (VStr "Pos") (VInt 10).
Proof.
  apply (X12_qualities_of_a_band (VInt 5) (VInt 5000) (VInt 10000) (VStr "INDIVIDUAL")
           (VStr "Pos") (VInt 10) "HIGHEST" "moderate" ["moderate"; "high"; "highest"]);
    [right; reflexivity|reflexivity|reflexivity].
Defined.

(** A length that fails the early-decline test and the 2-5 (or 3-5) test
    of its band is sized like 6 months. *)
Lemma size_limit_gap cat q ln sum med :
  (str_in q ["lowest"; "low"] = true
   /\ py_le ln (NInt 2) = false
   /\ py_le (NInt 3) ln && py_le ln (NInt 5) = false)
  \/ (str_in q ["lowest"; "low"] = false
      /\ py_le ln (NInt 1) = false
      /\ py_le (NInt 2) ln && py_le ln (NInt 5) = false) ->
  size_limit cat q ln sum med = size_limit cat q (NInt 6) sum med.
Proof.
  unfold size_limit.
  change (py_le (NInt 6) (NInt 2)) with false.
  change (py_le (NInt 6) (NInt 1)) with false.
  change (py_le (NInt 6) (NInt 5)) with false.
  rewrite !andb_false_r.
  intros [(Hq & H1 & H2)|(Hq & H1 & H2)]; rewrite Hq, H1, H2; reflexivity.
Qed.

(** X13: the length tests leave gaps.  With Lowest or Low quality a
    length that is neither [<= 2] nor within 3..5 (such as 2.5, or NaN),
    and with another quality a length that is neither [<= 1] nor within
    2..5 (such as 1.5), gives the same result as a length of 6 months. *)
Theorem X13_length_gap (a s m b l len : value) (qs : string) (ln : num) :
  as_num len = Some ln ->
  (str_in (lower qs) ["lowest"; "low"] = true
   /\ py_le ln (NInt 2) = false
   /\ py_le (NInt 3) ln && py_le ln (NInt 5) = false)
  \/ (str_in (lower qs) ["lowest"; "low"] = false
      /\ py_le ln (NInt 1) = false
      /\ py_le (NInt 2) ln && py_le ln (NInt 5) = false) ->
  set_credit_limit a s m b (VStr qs) l len
  = set_credit_limit a s m b (VStr qs) l (VInt 6).
Proof.
  intros El Hgap.
  unfold set_credit_limit, require_numeric. rewrite El. cbn [as_num].
  destruct (as_num a) as [ntx|]; [|reflexivity].
  destruct (as_num s) as [sum|]; [|reflexivity].
  destruct (as_num m) as [med|]; [|reflexivity].
  cbn [bind require_str].
  destruct (negb (str_in (lower qs) quality_levels)); [reflexivity|].
  destruct (attr_lower l) as [l'|]; [|reflexivity]. cbn [bind].
  destruct (negb (value_in l' listing_levels)); [reflexivity|].
  destruct (require_str b _) as [bs|]; [|reflexivity]. cbn [bind].
  destruct (negb (str_in (upper bs) business_types)); [reflexivity|].
  rewrite (size_limit_gap _ (lower qs) ln sum med Hgap). reflexivity.
Qed.

Lemma X13_length_gap_witness :
  set_credit_limit (VInt 5) (VInt 5000) (VInt 10000) (VStr "INDIVIDUAL")
    (VStr "Low") (VStr "Pos") (VFloat (dec_lit 25 10))
  = set_credit_limit (VInt 5) (VInt 5000) (VInt 10000) (VStr "INDIVIDUAL")
      (VStr "Low") (VStr "Pos") (VInt 6).
Proof.
  apply (X13_length_gap (VInt 5) (VInt 5000) (VInt 10000) (VStr "INDIVIDUAL")
           (VStr "Pos") (VFloat (dec_lit 25 10)) "Low" (NFloat (dec_lit 25 10)));
    [reflexivity|left; repeat split; reflexivity].
Defined.

(* ------------------------------------------------------------------ *)
(** ** Further properties: the form                                     *)
(* ------------------------------------------------------------------ *)

(** Every combination of select-box options passes validation. *)
Lemma form_accepted ntx sum med b q l len :
  In b business_options -> In q quality_options -> In l listing_options ->
  accepted (VFloat ntx) (VFloat sum) (VFloat med) (VStr b) (VStr q) (VStr l) (VInt len)
  = true.
Proof.
  unfold accepted, is_numeric, enum_field, business_options, quality_options,
    listing_options. cbn [as_num andb In].
  intros Hb Hq Hl.
  assert (Eb : str_in (upper b) business_types = true)
    by (repeat (destruct Hb as [<-|Hb]; [reflexivity|]); contradiction).
  assert (Eq : str_in (lower q) quality_levels = true)
    by (repeat (destruct Hq as [<-|Hq]; [reflexivity|]); contradiction).
  assert (El : str_in (lower l) listing_levels = true)
    by (repeat (destruct Hl as [<-|Hl]; [reflexivity|]); contradiction).
  rewrite Eb, Eq, El. reflexivity.
Qed.

(** The limit returned for a leaf and a non-negative float median is a
    non-negative multiple of 10. *)
Lemma leaf_limit_multiple f c med lim :
  In (f, c) leaves -> nonneg_real (VFloat med) = true ->
  round_to_ten (py_min (NFloat (SFmul prec emax f med)) (NInt c)) = Ok lim ->
  nonneg_multiple_of_10 lim = true.
Proof.
  intros Hin Hm Hlim.
  apply leaves_ok in Hin. unfold leaf_ok in Hin.
  repeat (apply andb_true_iff in Hin; destruct Hin as [Hin ?]).
  destruct f as [| | |[] mf ef]; try discriminate.
  set (x := SFmul prec emax (S754_finite false mf ef) med) in *.
  assert (Hx : py_mul (NFloat (S754_finite false mf ef)) (NFloat med) = Ok (NFloat x))
    by reflexivity.
  destruct (mul_nonneg mf ef _ (NFloat med) _ Hm eq_refl Hx) as (g & Hg & Hnn).
  injection Hg as <-. clearbody x.
  assert (Hc : 0 < c <= 350000) by (split; [now apply Z.ltb_lt|now apply Z.leb_le]).
  destruct (min_cases x c Hnn (proj1 Hc)) as [Hmin|[Hmin Hkeep]]; rewrite Hmin in Hlim.
  - rewrite Hlim in *. assumption.
  - destruct (round_to_ten_float x c Hc) as (l' & Hl' & Hok).
    { destruct x; try contradiction; auto. }
    rewrite Hlim in Hl'. inversion Hl'. subst. exact Hok.
Qed.

(** X14: the call made by the form never raises.  For any three float
    amounts, any options of the three select boxes and any [int] length it
    returns a tuple whose decision is Accept or Decline and whose limit is
    at most 350000; when the median is zero or a positive finite float, as
    [min_value=0.0] asks, the limit is a non-negative multiple of 10. *)
Theorem X14_form_call_returns (ntx sum med : spec_float) (b q l : string) (len : Z) :
  In b business_options -> In q quality_options -> In l listing_options ->
  exists d lim r,
    form_call ntx sum med b q l len = Ok (d, lim, r)
    /\ (d = "Accept" \/ d = "Decline")
    /\ py_gt lim (NInt 350000) = false
    /\ (nonneg_real (VFloat med) = true -> nonneg_multiple_of_10 lim = true).
Proof.
  intros Hb Hq Hl. unfold form_call.
  pose proof (form_accepted ntx sum med b q l len Hb Hq Hl) as Hacc.
  destruct (accepted_cases _ _ _ _ _ _ _ Hacc)
    as [(r & _ & E)|[(bs & m0 & fm & f & c & lim & _ & Em & Hfm & Hin & Hlim & E)
                    |(_ & z & Hz & _)]]; [| |discriminate].
  - exists "Decline", (NInt 0), r. repeat split; auto.
  - cbn [as_num] in Em. injection Em as <-. cbn [to_float] in Hfm. injection Hfm as <-.
    eexists _, lim, reason_default. split; [exact E|].
    split; [destruct (py_gt _ _); auto|].
    destruct (leaf_limit_le_cap _ _ _ _ _ Hin Hlim) as (Hle & Hcb).
    split.
    + apply py_gt_mono with (c := c); [|exact Hle].
      destruct (String.eqb (lower _) "ind") in Hcb; lia.
    + intros Hm. apply (leaf_limit_multiple f c med lim); auto.
      eapply leaves_of_leaves; eassumption.
Qed.

Lemma X14_form_call_returns_witness :
  exists d lim r,
    form_call (dec_lit 35 10) (dec_lit 50005 10) (dec_lit 123456 10)
      "PARTNERSHIP" "Highest" "Pos" 7 = Ok (d, lim, r)
    /\ (d = "Accept" \/ d = "Decline")
    /\ py_gt lim (NInt 350000) = false
    /\ (nonneg_real (VFloat (dec_lit 123456 10)) = true
        -> nonneg_multiple_of_10 lim = true).
Proof.
  apply (X14_form_call_returns (dec_lit 35 10) (dec_lit 50005 10) (dec_lit 123456 10)
           "PARTNERSHIP" "Highest" "Pos" 7);
    cbn [In business_options quality_options listing_options]; tauto.
Defined.
